(** * Verthandi: a command-line client for the Clockify time tracker

    A shallow embedding of the product code of the repository
    ([verthandi/config.py], [verthandi/clockify/client.py],
    [verthandi/cli/main.py]) and the properties its specification states.

    Python strings are Rocq strings (one character per code point below
    256), [None]-able arguments are [option]s, raised exceptions are the
    [Raise] branch of [result], and everything the code does to the outside
    world (the file system, the HTTP session) is explicit state. *)

From Stdlib Require Import ZArith Lia String Ascii List Bool.
From Stdlib Require Import Numbers.DecimalString.
From stdpp Require Import base option gmap strings.

Import ListNotations.
Local Open Scope string_scope.
Set Warnings "-register-all".

(** ** Exceptions and results *)

(** The exception classes that the code names or that its callees raise. *)
Inductive exn : Type :=
  | FileNotFoundError
  | PermissionError
  | OSError (what : string)
  | ValueError (msg : string)
  | TypeError (msg : string)
  | KeyError (key : string)
  | AttributeError (attr : string)
  | LibraryError (cls : string).

Inductive result (A : Type) : Type :=
  | Return (a : A)
  | Raise (e : exn).

Arguments Return {A} a.
Arguments Raise {A} e.

#[global] Instance result_ret : MRet result := fun _ a => Return a.

#[global] Instance result_bind : MBind result := fun _ _ k r =>
  match r with
  | Return a => k a
  | Raise e => Raise e
  end.

#[global] Instance result_fmap : FMap result := fun _ _ f r =>
  match r with
  | Return a => Return (f a)
  | Raise e => Raise e
  end.

(** ** Python string primitives *)

Module PyStr.

Definition code (c : ascii) : nat := nat_of_ascii c.

Definition TAB : ascii := ascii_of_nat 9.
Definition LF : ascii := ascii_of_nat 10.
Definition CR : ascii := ascii_of_nat 13.

Definition char_in (c : ascii) (chars : string) : bool :=
  existsb (Ascii.eqb c) (list_ascii_of_string chars).

(** [c in s] for a one-character [c]. *)
Fixpoint contains (c : ascii) (s : string) : bool :=
  match s with
  | EmptyString => false
  | String a s' => Ascii.eqb a c || contains c s'
  end.

Fixpoint all (p : ascii -> bool) (s : string) : bool :=
  match s with
  | EmptyString => true
  | String a s' => p a && all p s'
  end.

(** [s[:n]] and [s[n:]]. *)
Fixpoint take (n : nat) (s : string) : string :=
  match n, s with
  | S n', String a s' => String a (take n' s')
  | _, _ => EmptyString
  end.

Fixpoint drop (n : nat) (s : string) : string :=
  match n, s with
  | S n', String _ s' => drop n' s'
  | _, _ => s
  end.

(** [s[i:j]]. *)
Definition slice (i j : nat) (s : string) : string :=
  take (j - i) (drop i s).

(** [s.find(c)]: the index of the first [c], [None] for Python's -1. *)
Fixpoint find (c : ascii) (s : string) : option nat :=
  match s with
  | EmptyString => None
  | String a s' => if Ascii.eqb a c then Some 0 else S <$> find c s'
  end.

(** [s.find(c, start)]. *)
Definition find_from (c : ascii) (s : string) (start : nat) : option nat :=
  (fun i => start + i) <$> find c (drop start s).

(** [s.rfind(c)]. *)
Fixpoint rfind (c : ascii) (s : string) : option nat :=
  match s with
  | EmptyString => None
  | String a s' =>
      match rfind c s' with
      | Some i => Some (S i)
      | None => if Ascii.eqb a c then Some 0 else None
      end
  end.

(** [s.startswith(p)]. *)
Fixpoint startswith (p s : string) : bool :=
  match p, s with
  | EmptyString, _ => true
  | String a p', String b s' => Ascii.eqb a b && startswith p' s'
  | String _ _, EmptyString => false
  end.

(** [s.replace(c, "")] for a one-character [c]. *)
Fixpoint remove (c : ascii) (s : string) : string :=
  match s with
  | EmptyString => EmptyString
  | String a s' => if Ascii.eqb a c then remove c s' else String a (remove c s')
  end.

(** [s.replace(old, new, 1)]: only the first occurrence of [old], scanning
    from the left, is replaced. *)
Fixpoint replace_first (old new s : string) : string :=
  if startswith old s then new ++ drop (String.length old) s
  else match s with
       | EmptyString => EmptyString
       | String a s' => String a (replace_first old new s')
       end.

(** [s.split(c, 1)] when [c in s]: the text before and after the first [c]. *)
Definition split1 (c : ascii) (s : string) : string * string :=
  match find c s with
  | Some i => (take i s, drop (S i) s)
  | None => (s, EmptyString)
  end.

Definition between (lo hi : nat) (c : ascii) : bool :=
  Nat.leb lo (code c) && Nat.leb (code c) hi.

Definition isascii (c : ascii) : bool := between 0 127 c.
Definition isupper (c : ascii) : bool := between 65 90 c.
Definition islower (c : ascii) : bool := between 97 122 c.
Definition isdigit (c : ascii) : bool := between 48 57 c.

(** [c.isascii() and c.isalpha()]. *)
Definition isascii_alpha (c : ascii) : bool := isupper c || islower c.

Definition lower_char (c : ascii) : ascii :=
  if isupper c then ascii_of_nat (code c + 32) else c.

(** [s.lower()], on the ASCII letters. *)
Fixpoint lower (s : string) : string :=
  match s with
  | EmptyString => EmptyString
  | String a s' => String (lower_char a) (lower s')
  end.

(** [bool(s)]: a string is truthy when it is not empty. *)
Definition truthy (s : string) : bool :=
  match s with
  | EmptyString => false
  | String _ _ => true
  end.

End PyStr.

(** ** [urllib.parse]: the part of the standard library that
    [ClockifyClient._reports_base_url] goes through (as of CPython 3.11) *)

Module urllib.

Import PyStr.

Record ParseResult : Type := mkParseResult {
  scheme : string;
  netloc : string;
  path : string;
  params : string;
  query : string;
  fragment : string
}.

(** [url_tuple._replace(netloc=n)]. *)
Definition _replace_netloc (t : ParseResult) (n : string) : ParseResult :=
  {| scheme := scheme t; netloc := n; path := path t;
     params := params t; query := query t; fragment := fragment t |}.

Definition uses_netloc : list string :=
  [""; "ftp"; "http"; "gopher"; "nntp"; "telnet";
   "imap"; "wais"; "file"; "mms"; "https"; "shttp";
   "snews"; "prospero"; "rtsp"; "rtspu"; "rsync";
   "svn"; "svn+ssh"; "sftp"; "nfs"; "git"; "git+ssh";
   "ws"; "wss"].

Definition uses_params : list string :=
  [""; "ftp"; "hdl"; "prospero"; "http"; "imap";
   "https"; "shttp"; "rtsp"; "rtspu"; "sip"; "sips";
   "mms"; "sftp"; "tel"].

Definition str_in (s : string) (l : list string) : bool :=
  existsb (String.eqb s) l.

Definition is_scheme_char (c : ascii) : bool :=
  isupper c || islower c || isdigit c || char_in c "+-.".

(** Code points 0 to 0x20. *)
Definition is_c0_control_or_space (c : ascii) : bool := between 0 32 c.

(** [url.lstrip(_WHATWG_C0_CONTROL_OR_SPACE)]. *)
Fixpoint lstrip_c0 (s : string) : string :=
  match s with
  | EmptyString => EmptyString
  | String a s' => if is_c0_control_or_space a then lstrip_c0 s' else s
  end.

(** The loop over [_UNSAFE_URL_BYTES_TO_REMOVE]. *)
Definition remove_unsafe (url : string) : string :=
  remove LF (remove CR (remove TAB url)).

Definition _splitnetloc (url : string) (start : nat) : string * string :=
  let delim :=
    fold_left
      (fun delim c =>
         match find_from c url start with
         | Some wdelim => Nat.min delim wdelim
         | None => delim
         end)
      ["/"%char; "?"%char; "#"%char] (String.length url) in
  (slice start delim url, drop delim url).

Definition _splitparams (url : string) : string * string :=
  if contains "/" url then
    match rfind "/" url with
    | Some r =>
        match find_from ";" url r with
        | Some i => (take i url, drop (S i) url)
        | None => (url, "")
        end
    | None => (url, "")
    end
  else
    match find ";" url with
    | Some i => (take i url, drop (S i) url)
    | None => (take (String.length url - 1) url, url)
    end.

Section Parse.

(** Two checks of [urlsplit] lean on other modules ([ipaddress] and [re]
    for a bracketed host, [unicodedata] for a netloc that is not ASCII).
    They are taken as given: each says whether the netloc passes. *)
Variable _check_bracketed_netloc : string -> bool.
Variable nfkc_netloc_ok : string -> bool.

Definition _checknetloc (n : string) : bool :=
  if negb (truthy n) || all isascii n then true else nfkc_netloc_ok n.

(** [urlsplit(url)] with the default [scheme=''] and
    [allow_fragments=True]; the five components are returned in a
    [ParseResult] whose [params] is empty. *)
Definition urlsplit (url : string) : result ParseResult :=
  let url := lstrip_c0 url in
  let url := remove_unsafe url in
  let '(scheme, url) :=
    match find ":" url, url with
    | Some (S i), String c0 _ =>
        if isascii_alpha c0 && all is_scheme_char (take (S i) url)
        then (lower (take (S i) url), drop (S (S i)) url)
        else ("", url)
    | _, _ => ("", url)
    end in
  '(netloc, url) ←
    (if startswith "//" url then
       let '(netloc, url) := _splitnetloc url 2 in
       if (contains "[" netloc && negb (contains "]" netloc))
          || (contains "]" netloc && negb (contains "[" netloc))
       then Raise (ValueError "Invalid IPv6 URL")
       else if contains "[" netloc && contains "]" netloc
               && negb (_check_bracketed_netloc netloc)
       then Raise (ValueError "Invalid IPv6 URL")
       else Return (netloc, url)
     else Return ("", url));
  let '(url, fragment) :=
    if contains "#" url then split1 "#" url else (url, "") in
  let '(url, query) :=
    if contains "?" url then split1 "?" url else (url, "") in
  if _checknetloc netloc
  then Return (mkParseResult scheme netloc url "" query fragment)
  else Raise (ValueError "netloc contains invalid characters under NFKC normalization").

Definition urlparse (url : string) : result ParseResult :=
  r ← urlsplit url;
  let '(url, params) :=
    if str_in (scheme r) uses_params && contains ";" (path r)
    then _splitparams (path r)
    else (path r, "") in
  Return (mkParseResult (scheme r) (netloc r) url params (query r) (fragment r)).

End Parse.

(** [urlunsplit]; [params] of the argument is ignored. *)
Definition urlunsplit (t : ParseResult) : string :=
  let url := path t in
  let url :=
    if truthy (netloc t)
       || (truthy (scheme t) && str_in (scheme t) uses_netloc
           && negb (String.eqb (take 2 url) "//"))
    then
      let url :=
        if truthy url && negb (String.eqb (take 1 url) "/")
        then "/" ++ url else url in
      "//" ++ netloc t ++ url
    else url in
  let url := if truthy (scheme t) then scheme t ++ ":" ++ url else url in
  let url := if truthy (query t) then url ++ "?" ++ query t else url in
  let url := if truthy (fragment t) then url ++ "#" ++ fragment t else url in
  url.

Definition urlunparse (t : ParseResult) : string :=
  let url := if truthy (params t) then path t ++ ";" ++ params t else path t in
  urlunsplit (mkParseResult (scheme t) (netloc t) url "" (query t) (fragment t)).

(** *** Base URLs of the shape [scheme://netloc/path]

    The scheme starts with a letter and is made of scheme characters; the
    network location is not empty, is ASCII and has no delimiter, bracket,
    tab or line break; the path is empty or starts with a slash and has no
    query, fragment or parameter delimiter, tab or line break. *)

Definition is_unsafe (c : ascii) : bool :=
  Ascii.eqb c TAB || Ascii.eqb c CR || Ascii.eqb c LF.

Definition scheme_ok (s : string) : bool :=
  match s with
  | String c0 _ => isascii_alpha c0 && all is_scheme_char s
  | EmptyString => false
  end.

Definition netloc_char (c : ascii) : bool :=
  isascii c && negb (char_in c "/?#[]") && negb (is_unsafe c).

Definition netloc_ok (n : string) : bool := truthy n && all netloc_char n.

Definition path_char (c : ascii) : bool :=
  negb (char_in c "?#;") && negb (is_unsafe c).

Definition path_ok (p : string) : bool :=
  (negb (truthy p) || startswith "/" p) && all path_char p.

End urllib.

(** [str(n)] and ["%d" % n] for an integer. *)
Definition str_of_Z (n : Z) : string := NilEmpty.string_of_int (Z.to_int n).

(** ** [verthandi/config.py] *)

Module config.

(** *** The file system

    The file system is given by its regular files: the map from a path to
    the regular file there, with what the process may do with it.
    Directories are not entries of the map. A directory is there when a
    regular file lies below it; one that is not there can be made, unless
    a regular file stands where a directory is needed; making it changes
    no regular file and is not recorded. The permissions of directories
    are not part of the model: a directory that is there, or that has
    been made, lets the process reach and create the files below it.
    Paths are compared as they are written, and no two paths name the
    same file. *)

Record file : Type := mkFile {
  readable : bool;
  writable : bool;
  content : string
}.

Abbreviation filesystem := (gmap string file).

(** [path] lies below the directory [dir]. *)
Definition below (dir path : string) : bool :=
  PyStr.startswith (dir ++ "/") path.

(** There is a directory at [path]: a regular file lies below it. *)
Definition is_dir (fs : filesystem) (path : string) : bool :=
  existsb (fun entry => below path (fst entry)) (map_to_list fs).

(** A regular file stands where [path] needs a directory. *)
Definition blocked (fs : filesystem) (path : string) : bool :=
  existsb (fun entry => below (fst entry) path) (map_to_list fs).

(** What [open] raises when there is no regular file at [path]. *)
Definition no_file_there (fs : filesystem) (path : string) : option exn :=
  if blocked fs path then Some (OSError "NotADirectoryError")
  else if is_dir fs path then Some (OSError "IsADirectoryError")
  else None.

(** [open(path, "r")] followed by [f.read()]. *)
Definition open_r (fs : filesystem) (path : string) : result string :=
  match fs !! path with
  | None => Raise (default FileNotFoundError (no_file_there fs path))
  | Some f => if readable f then Return (content f) else Raise PermissionError
  end.

(** [open(path, "w")] as [save] calls it, once [os.makedirs] has returned
    and the directory of [path] is there: the file is created, or
    truncated when it exists. *)
Definition open_w (fs : filesystem) (path : string) : result filesystem :=
  match fs !! path with
  | None =>
      match no_file_there fs path with
      | Some e => Raise e
      | None => Return (<[path := mkFile true true ""]> fs)
      end
  | Some f =>
      if writable f
      then Return (<[path := mkFile (readable f) (writable f) ""]> fs)
      else Raise PermissionError
  end.

(** [pathlib]: the components of a POSIX path, without the empty ones and
    the dots, and its root. *)
Fixpoint split_slash (acc s : string) : list string :=
  match s with
  | EmptyString => [acc]
  | String c s' =>
      if Ascii.eqb c "/" then acc :: split_slash "" s'
      else split_slash (acc ++ String c "") s'
  end.

Definition parts (path : string) : list string :=
  List.filter (fun c => negb (String.eqb c "") && negb (String.eqb c "."))
              (split_slash "" path).

Definition root (path : string) : string :=
  if PyStr.startswith "//" path && negb (PyStr.startswith "///" path) then "//"
  else if PyStr.startswith "/" path then "/"
  else "".

Fixpoint join_slash (l : list string) : string :=
  match l with
  | [] => ""
  | [c] => c
  | c :: l' => c ++ "/" ++ join_slash l'
  end.

(** [str(Path(path).parent)]. *)
Definition parent (path : string) : string :=
  match root path, removelast (parts path) with
  | EmptyString, [] => "."
  | r, l => r ++ join_slash l
  end.

(** [os.makedirs(filepath.parent, mode=0o775, exist_ok=True)]. The
    directory of a file that is there is there, and so is one with a file
    below it: nothing is done. A regular file at the place of the
    directory is a [FileExistsError], one further up a
    [NotADirectoryError]. Otherwise the directory is made, which changes
    no regular file. *)
Definition makedirs_parent (fs : filesystem) (filepath : string) : result unit :=
  match fs !! filepath with
  | Some _ => Return tt
  | None =>
      let dir := parent filepath in
      if is_dir fs dir then Return tt
      else
        match fs !! dir with
        | Some _ => Raise (OSError "FileExistsError")
        | None =>
            if blocked fs dir then Raise (OSError "NotADirectoryError")
            else Return tt
        end
  end.

(** [f.write(text)] on the file just opened at [path]. *)
Definition write (fs : filesystem) (path : string) (text : string) : filesystem :=
  match fs !! path with
  | None => fs
  | Some f => <[path := mkFile (readable f) (writable f) text]> fs
  end.

(** *** [tomlkit] *)

(** The values of a parsed TOML document. A float and a date carry their
    Python [str()]. *)
Inductive toml_value : Type :=
  | TString (s : string)
  | TInteger (n : Z)
  | TFloat (repr : string)
  | TBool (b : bool)
  | TDateTime (repr : string)
  | TArray (items : list toml_value)
  | TTable (entries : list (string * toml_value)).

(** *** [pydantic] *)

(** pydantic's [str_validator]: a [str] is kept, a number is turned into
    its [str()] ([bool] is a subclass of [int]), anything else is refused. *)
Definition str_validator (v : toml_value) : result string :=
  match v with
  | TString s => Return s
  | TInteger n => Return (str_of_Z n)
  | TFloat repr => Return repr
  | TBool b => Return (if b then "True" else "False")
  | TDateTime _ | TArray _ | TTable _ => Raise (LibraryError "pydantic.ValidationError")
  end.

Record VerthandiSettings : Type := mkSettings {
  BASE_URL : string;
  API_KEY : option string
}.

Definition default_BASE_URL : string := "https://api.clockify.me/api/v1".

Section Settings.

(** [appdirs.user_config_dir("Verthandi", False)]. *)
Variable user_config_dir : string.

(** [os.environ] as [BaseSettings] reads it: the names in lower case
    ([case_sensitive] is off and there is no [env_prefix]). *)
Variable env_vars : gmap string string.

(** How [tomlkit] writes a string value, quotes included, and what
    [tomlkit.parse] makes of a text. *)
Variable toml_basic_string : string -> string.
Variable tomlkit_parse : string -> result (gmap string toml_value).

Definition _get_appdirs_path : string :=
  user_config_dir ++ "/" ++ "verthandi.toml".

(** [self.dict()]. *)
Definition dict (self : VerthandiSettings) : list (string * option string) :=
  [("BASE_URL", Some (BASE_URL self)); ("API_KEY", API_KEY self)].

(** [tomlkit.dumps] of a flat [dict]: every value goes through
    [tomlkit.items.item], which has a case for [str] and none for [None]
    (TOML has no null) and raises a [ValueError] at the end of its cases;
    a string value is written as [key = "..."]. *)
Fixpoint tomlkit_dumps (d : list (string * option string)) : result string :=
  match d with
  | [] => Return ""
  | (k, v) :: d' =>
      match v with
      | None => Raise (ValueError "Invalid type <class 'NoneType'>")
      | Some s =>
          rest ← tomlkit_dumps d';
          Return (k ++ " = " ++ toml_basic_string s ++ String PyStr.LF "" ++ rest)
      end
  end.

Definition to_str (self : VerthandiSettings) : result string :=
  tomlkit_dumps (dict self).

(** [BaseSettings.__init__] with keyword arguments: a field comes from the keyword
    arguments, else from the environment, else from its default; a
    keyword that is no field is refused ([extra = forbid]). *)
Definition init_settings (kwargs : gmap string toml_value) : result VerthandiSettings :=
  if bool_decide (dom kwargs ⊆ ({["BASE_URL"; "API_KEY"]} : gset string)) then
    base_url ←
      match kwargs !! "BASE_URL" with
      | Some v => str_validator v
      | None => Return (default default_BASE_URL (env_vars !! "base_url"))
      end;
    api_key ←
      match kwargs !! "API_KEY" with
      | Some v => Some <$> str_validator v
      | None => Return (env_vars !! "api_key")
      end;
    Return (mkSettings base_url api_key)
  else Raise (LibraryError "pydantic.ValidationError").

(** [cls()]. *)
Definition new_settings : VerthandiSettings :=
  mkSettings (default default_BASE_URL (env_vars !! "base_url"))
             (env_vars !! "api_key").

(** [cls.parse_obj(data)]. *)
Definition parse_obj (data : gmap string toml_value) : result VerthandiSettings :=
  init_settings data.

(** [save]: the directory is made, then the file is opened for writing
    before [to_str] is evaluated, so it is there, and empty, when [to_str]
    raises. *)
Definition save (self : VerthandiSettings) (filepath : option string)
    (fs : filesystem) : result unit * filesystem :=
  let filepath := default _get_appdirs_path filepath in
  match makedirs_parent fs filepath with
  | Raise e => (Raise e, fs)
  | Return _ =>
      match open_w fs filepath with
      | Raise e => (Raise e, fs)
      | Return fs_open =>
          match to_str self with
          | Raise e => (Raise e, fs_open)
          | Return text => (Return tt, write fs_open filepath text)
          end
      end
  end.

(** [load]: [attempt] is the [try] block; the [except] clause takes the
    two exceptions it names and lets any other one go. *)
Definition load (filepath : option string) (fs : filesystem)
    : result VerthandiSettings * filesystem :=
  let filepath := default _get_appdirs_path filepath in
  let attempt :=
    text ← open_r fs filepath;
    data ← tomlkit_parse text;
    parse_obj data in
  match attempt with
  | Raise PermissionError | Raise FileNotFoundError =>
      let settings_ := new_settings in
      match save settings_ None fs with
      | (Raise e, fs') => (Raise e, fs')
      | (Return _, fs') => (Return settings_, fs')
      end
  | _ => (attempt, fs)
  end.

(** *** What the properties below are stated with *)

(** A document that matches the schema of the settings file: [BASE_URL] is
    a string, [API_KEY] is a string or is left out (TOML has no null), and
    there is no other key. *)
Definition matches_schema (doc : gmap string toml_value) : Prop :=
  dom doc ⊆ ({["BASE_URL"; "API_KEY"]} : gset string)
  /\ (exists b, doc !! "BASE_URL" = Some (TString b))
  /\ (doc !! "API_KEY" = None \/ exists k, doc !! "API_KEY" = Some (TString k)).

(** The file at [path] is missing or may not be read. *)
Definition missing_or_unreadable (fs : filesystem) (path : string) : Prop :=
  open_r fs path = Raise FileNotFoundError \/ open_r fs path = Raise PermissionError.

End Settings.

End config.

(** ** [verthandi/clockify/client.py] *)

Module client.

Import PyStr.

(** What [json.loads] returns. A float carries its Python [str()]. *)
Inductive json : Type :=
  | JNull
  | JBool (b : bool)
  | JInt (n : Z)
  | JFloat (repr : string)
  | JStr (s : string)
  | JList (items : list json)
  | JDict (entries : list (string * json)).

Fixpoint assoc (key : string) (entries : list (string * json)) : option json :=
  match entries with
  | [] => None
  | (k, v) :: rest => if String.eqb k key then Some v else assoc key rest
  end.

(** [type(v).__name__]. *)
Definition type_name (v : json) : string :=
  match v with
  | JNull => "NoneType"
  | JBool _ => "bool"
  | JInt _ => "int"
  | JFloat _ => "float"
  | JStr _ => "str"
  | JList _ => "list"
  | JDict _ => "dict"
  end.

(** [obj[key]] for a string [key], with the messages of CPython 3.11. *)
Definition subscript (obj : json) (key : string) : result json :=
  match obj with
  | JDict entries =>
      match assoc key entries with
      | Some v => Return v
      | None => Raise (KeyError key)
      end
  | JList _ => Raise (TypeError "list indices must be integers or slices, not str")
  | JStr _ => Raise (TypeError "string indices must be integers, not 'str'")
  | JNull | JBool _ | JInt _ | JFloat _ =>
      Raise (TypeError ("'" ++ type_name obj ++ "' object is not subscriptable"))
  end.

(** [typing.Defaults]: the types are hints, the values are whatever the
    user document holds. *)
Record Defaults : Type := mkDefaults {
  workspaceId : json;
  userId : json
}.

Record Session : Type := mkSession {
  headers : gmap string string
}.

(** An instance of [ClockifyClient]; [_defaults] is [None] until
    [__init__] has assigned the attribute. *)
Record ClockifyClient : Type := mkClient {
  _session : Session;
  _base_url : string;
  _defaults : option Defaults
}.

Inductive url_type : Type := report | workspace | workspace_user.

Inductive http_method : Type := GET | POST | PATCH.

Record response : Type := mkResponse {
  status_code : nat;
  text : string
}.

Section Client.

(** The module-level [settings] of [verthandi.config]. *)
Variable settings : config.VerthandiSettings.

(** The two checks of [urlsplit] that are taken as given. *)
Variable _check_bracketed_netloc : string -> bool.
Variable nfkc_netloc_ok : string -> bool.

(** Query parameters and request bodies are passed through untouched. *)
Variable Params : Type.
Variable Body : Type.

Record request : Type := mkRequest {
  method : http_method;
  url : string;
  req_headers : gmap string string;
  req_params : option Params;
  data : option string
}.

(** The headers a fresh [requests.Session] starts with. *)
Variable default_headers : gmap string string.

(** The remote service: its answer to a request, given the requests it
    has seen before. [Raise] is an exception of the transport. *)
Variable remote : list request -> request -> result response.

(** [orjson]. *)
Variable json_loads : string -> result json.
Variable json_dumps : option Body -> result string.

(** What an f-string writes for a value that is not a [str]: the
    [str()] of the value. The text of a list or of a dict is taken as
    given. *)
Variable str_of_container : json -> string.

Definition format_value (v : json) : string :=
  match v with
  | JStr s => s
  | JNull => "None"
  | JBool b => if b then "True" else "False"
  | JInt n => str_of_Z n
  | JFloat repr => repr
  | JList _ | JDict _ => str_of_container v
  end.

(** The client and the requests that have gone out so far. *)
Record world : Type := mkWorld {
  self : ClockifyClient;
  sent : list request
}.

Definition _reports_base_url (self : ClockifyClient) : result string :=
  url_tuple ← urllib.urlparse _check_bracketed_netloc nfkc_netloc_ok (_base_url self);
  let url_tuple :=
    urllib._replace_netloc url_tuple
      (replace_first "api" "reports" (urllib.netloc url_tuple)) in
  Return (urllib.urlunparse url_tuple).

(** [self._defaults[key]]. *)
Definition default_id (self : ClockifyClient) (field : Defaults -> json)
    : result string :=
  match _defaults self with
  | Some d => Return (format_value (field d))
  | None => Raise (AttributeError "_defaults")
  end.

Definition _get_url (self : ClockifyClient) (endpoint : string)
    (url_type : option url_type) (workspace_id user_id : option string)
    : result string :=
  match url_type with
  | Some report =>
      base ← _reports_base_url self;
      Return (base ++ "/" ++ endpoint)
  | Some workspace =>
      workspace_id ←
        match workspace_id with
        | None => default_id self workspaceId
        | Some w => Return w
        end;
      Return (_base_url self ++ "/workspaces/" ++ workspace_id ++ "/" ++ endpoint)
  | Some workspace_user =>
      workspace_id ←
        match workspace_id with
        | None => default_id self workspaceId
        | Some w => Return w
        end;
      user_id ←
        match user_id with
        | None => default_id self userId
        | Some u => Return u
        end;
      Return (_base_url self ++ "/workspaces/" ++ workspace_id
              ++ "/user/" ++ user_id ++ "/" ++ endpoint)
  | None => Return (_base_url self ++ "/" ++ endpoint)
  end.

(** [self._session.request(method, url, params=..., data=...)]: the
    request carries the headers of the session. *)
Definition session_request (m : http_method) (u : string)
    (params : option Params) (body : option string) (w : world)
    : result response * world :=
  let rq := mkRequest m u (headers (_session (self w))) params body in
  (remote (sent w) rq, mkWorld (self w) (sent w ++ [rq])).

(** [json.loads(req.text)] for the outcome of a request. *)
Definition decode (r : result response * world) : result json * world :=
  match r with
  | (Return req, w) => (json_loads (text req), w)
  | (Raise e, w) => (Raise e, w)
  end.

Definition get_user (w : world) : result json * world :=
  match _get_url (self w) "user" None None None with
  | Raise e => (Raise e, w)
  | Return u => decode (session_request GET u None None w)
  end.

Definition list_timeentry (workspace_id user_id : option string)
    (params : option Params) (w : world) : result json * world :=
  match _get_url (self w) "time-entries" (Some workspace_user) workspace_id user_id with
  | Raise e => (Raise e, w)
  | Return u => decode (session_request GET u params None w)
  end.

Definition start_timeentry (workspace_id : option string)
    (body : option Body) (params : option Params) (w : world)
    : result json * world :=
  match _get_url (self w) "time-entries" (Some workspace) workspace_id None with
  | Raise e => (Raise e, w)
  | Return u =>
      match json_dumps body with
      | Raise e => (Raise e, w)
      | Return payload => decode (session_request POST u params (Some payload) w)
      end
  end.

Definition stop_timeentry (workspace_id user_id : option string)
    (body : option Body) (params : option Params) (w : world)
    : result json * world :=
  match _get_url (self w) "time-entries" (Some workspace_user) workspace_id user_id with
  | Raise e => (Raise e, w)
  | Return u =>
      match json_dumps body with
      | Raise e => (Raise e, w)
      | Return payload => decode (session_request PATCH u params (Some payload) w)
      end
  end.

(** [api_key or ""]. *)
Definition or_empty (api_key : option string) : string :=
  match api_key with
  | Some key => if truthy key then key else ""
  | None => ""
  end.

(** [ClockifyClient(api_key, base_url)], with the requests [sent0] that
    went out before. When an exception leaves [__init__] there is no
    client; the world returned then still records what was sent. *)
Definition __init__ (api_key : option string) (base_url : option string)
    (sent0 : list request) : result unit * world :=
  let base_url := default (config.BASE_URL settings) base_url in
  let session :=
    mkSession (<["Content-Type" := "application/json"]>
                 (<["X-Api-Key" := or_empty api_key]> default_headers)) in
  let w0 := mkWorld (mkClient session base_url None) sent0 in
  match get_user w0 with
  | (Raise e, w) => (Raise e, w)
  | (Return user_data, w) =>
      match subscript user_data "defaultWorkspace" with
      | Raise e => (Raise e, w)
      | Return workspace_id =>
          match subscript user_data "id" with
          | Raise e => (Raise e, w)
          | Return user_id =>
              let d := mkDefaults workspace_id user_id in
              (Return tt,
               mkWorld (mkClient (_session (self w)) (_base_url (self w)) (Some d))
                       (sent w))
          end
      end
  end.

(** The four operations of the client, as a caller names them. *)
Inductive operation : Type :=
  | OpGetUser
  | OpList (workspace_id user_id : option string) (params : option Params)
  | OpStart (workspace_id : option string) (body : option Body) (params : option Params)
  | OpStop (workspace_id user_id : option string) (body : option Body)
           (params : option Params).

Definition perform (op : operation) (w : world) : result json * world :=
  match op with
  | OpGetUser => get_user w
  | OpList ws us ps => list_timeentry ws us ps w
  | OpStart ws b ps => start_timeentry ws b ps w
  | OpStop ws us b ps => stop_timeentry ws us b ps w
  end.

(** A caller performing operations one after the other, whatever each
    returns or raises. *)
Fixpoint perform_all (ops : list operation) (w : world) : world :=
  match ops with
  | [] => w
  | op :: rest => perform_all rest (snd (perform op w))
  end.

(** *** What the properties below are stated with *)

(** One HTTP call: the request goes out, the body of the answer is decoded,
    and an exception of the transport or of the decoder is the outcome. *)
Definition one_call (w : world) (rq : request) : result json * world :=
  (resp ← remote (sent w) rq; json_loads (text resp),
   mkWorld (self w) (sent w ++ [rq])).

(** The session headers that [__init__] sets up. *)
Definition init_headers (api_key : option string) : gmap string string :=
  <["Content-Type" := "application/json"]>
    (<["X-Api-Key" := or_empty api_key]> default_headers).

End Client.

Arguments mkRequest {Params}.
Arguments method {Params}.
Arguments url {Params}.
Arguments req_headers {Params}.
Arguments req_params {Params}.
Arguments data {Params}.
Arguments mkWorld {Params}.
Arguments self {Params}.
Arguments sent {Params}.

End client.

(** ** [verthandi/cli/main.py] *)

Module cli.

Local Open Scope Z_scope.

(** A [datetime]: its date and time of day as microseconds on the
    proleptic calendar, and the UTC offset of its [tzinfo] in
    microseconds ([None] for a naive value). *)
Record datetime : Type := mkDatetime {
  wall : Z;
  utcoffset : option Z
}.

(** A [timedelta] in its normal form: [0 <= seconds < 86400] and
    [0 <= microseconds < 1000000], the sign is in [days]. *)
Record timedelta : Type := mkTimedelta {
  days : Z;
  seconds : Z;
  microseconds : Z
}.

Definition us_per_second : Z := 1000000.
Definition us_per_day : Z := 86400 * us_per_second.

(** [timedelta(microseconds=us)]. *)
Definition timedelta_of_us (us : Z) : timedelta :=
  mkTimedelta (us / us_per_day)
              ((us mod us_per_day) / us_per_second)
              (us mod us_per_second).

(** [dt.datetime.now(dt.timezone.utc)] when the clock reads [clock]
    microseconds. *)
Definition now_utc (clock : Z) : datetime := mkDatetime clock (Some 0).

(** [d.replace(microsecond=0)]. *)
Definition replace_microsecond_0 (d : datetime) : datetime :=
  mkDatetime (wall d - wall d mod us_per_second) (utcoffset d).

(** [a - b]: both aware (with distinct [tzinfo] objects, as here) or both
    naive. *)
Definition datetime_sub (a b : datetime) : result timedelta :=
  match utcoffset a, utcoffset b with
  | Some oa, Some ob => Return (timedelta_of_us ((wall a - oa) - (wall b - ob)))
  | None, None => Return (timedelta_of_us (wall a - wall b))
  | _, _ => Raise (TypeError "can't subtract offset-naive and offset-aware datetimes")
  end.

(** ["%0<width>d" % n] for [0 <= n]. *)
Definition zero_pad (width : nat) (n : Z) : string :=
  let digits := str_of_Z n in
  String.concat "" (repeat "0"%string (width - String.length digits)) ++ digits.

(** [timedelta.__str__]. *)
Definition str_timedelta (t : timedelta) : string :=
  let mm := seconds t / 60 in
  let ss := seconds t mod 60 in
  let hh := mm / 60 in
  let mm := mm mod 60 in
  let s := (str_of_Z hh ++ ":" ++ zero_pad 2 mm ++ ":" ++ zero_pad 2 ss)%string in
  let plural : string := if Z.abs (days t) =? 1 then "" else "s" in
  let s :=
    if days t =? 0 then s
    else (str_of_Z (days t) ++ " day" ++ plural ++ ", " ++ s)%string in
  let s :=
    if microseconds t =? 0 then s
    else (s ++ "." ++ zero_pad 6 (microseconds t))%string in
  s.

Section Main.

(** [dateutil.parser.parse]. *)
Variable dt_parse : string -> result datetime.

(** [get_timedelta(dts_1)] when the clock reads [clock]. *)
Definition get_timedelta (clock : Z) (dts_1 : string) : result string :=
  let now := replace_microsecond_0 (now_utc clock) in
  dt_1 ← dt_parse dts_1;
  timedelta ← datetime_sub now dt_1;
  Return (str_timedelta timedelta).

End Main.

End cli.

(** ** [verthandi/cli/main.py]: the commands *)

Module commands.

Import client cli.

(** The values of the request bodies that the commands build: a [str] or a
    [datetime]. A body and the query parameters are [dict] literals, kept
    in the order they are written. *)
Inductive body_value : Type :=
  | BStr (s : string)
  | BDatetime (d : datetime).

Abbreviation Body := (list (string * body_value)).
Abbreviation Params := (list (string * json)).

(** What a command writes to the terminal: a [rich] table handed to
    [console.print], an object handed to [print], a text handed to
    [typer.echo]. *)
Inductive output : Type :=
  | PrintTable (columns : list string) (rows : list (list string))
  | Print (v : json)
  | Echo (s : string).

(** The process while a command runs: the client and the requests sent, the
    number of times the clock has been read, and the terminal. *)
Record process : Type := mkProcess {
  api : world Params;
  ticks : nat;
  stdout : list output
}.

(** What is left when the program ends. *)
Record run : Type := mkRun {
  files : config.filesystem;
  requests : list (request Params);
  printed : list output
}.

Inductive command : Type :=
  | CmdList
  | CmdStart (description : string)
  | CmdFinish
  | CmdConfig.

(** The headers of the table of [list_]; the third one is a capital delta
    followed by [t], here in UTF-8. *)
Definition columns : list string := ["Description"; "Start :clock1:"; "Δt"].

(** [for entry in time_entries]: what the loop goes through. *)
Definition iterate (v : json) : result (list json) :=
  match v with
  | JList items => Return items
  | JDict entries => Return (map (fun kv => JStr (fst kv)) entries)
  | JStr s => Return (map (fun c => JStr (String c "")) (list_ascii_of_string s))
  | JNull | JBool _ | JInt _ | JFloat _ =>
      Raise (TypeError ("'" ++ type_name v ++ "' object is not iterable"))
  end.

(** A cell given to [Table.add_row]: a [str] is kept, [None] is an empty
    cell, and [rich] refuses the other values of a JSON document. *)
Definition cell (v : json) : result string :=
  match v with
  | JStr s => Return s
  | JNull => Return ""
  | JBool _ | JInt _ | JFloat _ | JList _ | JDict _ =>
      Raise (LibraryError "rich.errors.NotRenderableError")
  end.

Section Commands.

Variable user_config_dir : string.
Variable env_vars : gmap string string.
Variable toml_basic_string : string -> string.
Variable tomlkit_parse : string -> result (gmap string config.toml_value).
Variable _check_bracketed_netloc : string -> bool.
Variable nfkc_netloc_ok : string -> bool.
Variable default_headers : gmap string string.
Variable remote : list (request Params) -> request Params -> result response.
Variable json_loads : string -> result json.
Variable json_dumps : option Body -> result string.
Variable str_of_container : json -> string.
Variable dt_parse : string -> result datetime.

(** The clock: what [dt.datetime.now] reads the first time, the second
    time, and so on. *)
Variable clock : nat -> Z.

(** [console.print(t)] of [rich] for a table with these headers and rows.
    The cells are rendered as console markup before anything is written:
    either the whole table is written, or [rich] raises, as it does with
    [rich.errors.MarkupError] for a cell such as [fix [/api] route], and
    the terminal is left as it was. *)
Variable console_print : list string -> list (list string) -> result unit.

(** [get_timedelta(v)] for a value of the answer: the clock is read, then
    [dateutil] parses a [str] and refuses anything else. *)
Definition get_timedelta_of (v : json) (reading : Z) : result string :=
  match v with
  | JStr dts_1 => get_timedelta dt_parse reading dts_1
  | JNull | JBool _ | JInt _ | JFloat _ | JList _ | JDict _ =>
      Raise (TypeError ("Parser must be a string or character stream, not "
                        ++ type_name v))
  end.

(** One turn of the loop of [list_]: the three arguments of [add_row] from
    left to right, then [add_row]. The number is the clock count. *)
Definition row_of (entry : json) (t : nat) : result (list string) * nat :=
  match subscript entry "description" with
  | Raise e => (Raise e, t)
  | Return description =>
      match (interval ← subscript entry "timeInterval"; subscript interval "start") with
      | Raise e => (Raise e, t)
      | Return start =>
          match get_timedelta_of start (clock t) with
          | Raise e => (Raise e, S t)
          | Return delta =>
              (d ← cell description; s ← cell start; Return [d; s; delta], S t)
          end
      end
  end.

Fixpoint rows_of (entries : list json) (t : nat)
    : result (list (list string)) * nat :=
  match entries with
  | [] => (Return [], t)
  | entry :: rest =>
      match row_of entry t with
      | (Raise e, t') => (Raise e, t')
      | (Return row, t') =>
          match rows_of rest t' with
          | (Raise e, t'') => (Raise e, t'')
          | (Return rows, t'') => (Return (row :: rows), t'')
          end
      end
  end.

Definition list_ (p : process) : result unit * process :=
  match list_timeentry _check_bracketed_netloc nfkc_netloc_ok Params remote
          json_loads str_of_container None None
          (Some [("in-progress", JBool true)]) (api p) with
  | (Raise e, w) => (Raise e, mkProcess w (ticks p) (stdout p))
  | (Return time_entries, w) =>
      match iterate time_entries with
      | Raise e => (Raise e, mkProcess w (ticks p) (stdout p))
      | Return entries =>
          match rows_of entries (ticks p) with
          | (Raise e, t) => (Raise e, mkProcess w t (stdout p))
          | (Return rows, t) =>
              match console_print columns rows with
              | Raise e => (Raise e, mkProcess w t (stdout p))
              | Return _ =>
                  (Return tt, mkProcess w t (stdout p ++ [PrintTable columns rows]))
              end
          end
      end
  end.

Definition start (description : string) (p : process) : result unit * process :=
  let body :=
    [("description", BStr description);
     ("start", BDatetime (now_utc (clock (ticks p))))] in
  match start_timeentry _check_bracketed_netloc nfkc_netloc_ok Params Body remote
          json_loads json_dumps str_of_container None (Some body) None (api p) with
  | (Raise e, w) => (Raise e, mkProcess w (S (ticks p)) (stdout p))
  | (Return _, w) => (Return tt, mkProcess w (S (ticks p)) (stdout p))
  end.

Definition finish (p : process) : result unit * process :=
  let body := [("end", BDatetime (now_utc (clock (ticks p))))] in
  match stop_timeentry _check_bracketed_netloc nfkc_netloc_ok Params Body remote
          json_loads json_dumps str_of_container None None (Some body) None (api p) with
  | (Raise e, w) => (Raise e, mkProcess w (S (ticks p)) (stdout p))
  | (Return answer, w) =>
      (Return tt, mkProcess w (S (ticks p)) (stdout p ++ [Print answer]))
  end.

(** The command [config]. *)
Definition config_ (settings : config.VerthandiSettings) (p : process)
    : result unit * process :=
  match config.to_str toml_basic_string settings with
  | Raise e => (Raise e, p)
  | Return text => (Return tt, mkProcess (api p) (ticks p) (stdout p ++ [Echo text]))
  end.

Definition dispatch (settings : config.VerthandiSettings) (cmd : command)
    (p : process) : result unit * process :=
  match cmd with
  | CmdList => list_ p
  | CmdStart description => start description p
  | CmdFinish => finish p
  | CmdConfig => config_ settings p
  end.

(** The program on one command. Importing [verthandi.cli.main] runs its
    top-level statements: [verthandi.config] loads the settings, then the
    client is constructed; only then does [typer] call the command. *)
Definition main (cmd : command) (fs : config.filesystem) : result unit * run :=
  match config.load user_config_dir env_vars toml_basic_string tomlkit_parse
          None fs with
  | (Raise e, fs') => (Raise e, mkRun fs' [] [])
  | (Return settings, fs') =>
      match __init__ settings _check_bracketed_netloc nfkc_netloc_ok Params
              default_headers remote json_loads str_of_container
              (config.API_KEY settings) (Some (config.BASE_URL settings)) [] with
      | (Raise e, w) => (Raise e, mkRun fs' (sent w) [])
      | (Return _, w) =>
          let '(r, p) := dispatch settings cmd (mkProcess w 0 []) in
          (r, mkRun fs' (sent (api p)) (stdout p))
      end
  end.

(** *** What the properties below are stated with *)

(** An entry that [list_] can show: a JSON object whose [description] is
    a string or null and whose [timeInterval] has a [start] that parses to
    an aware [datetime]. *)
Definition entry_ok (entry : json) : Prop :=
  exists (description interval : json) (d s : string) (wall offset : Z),
    subscript entry "description" = Return description
    /\ cell description = Return d
    /\ subscript entry "timeInterval" = Return interval
    /\ subscript interval "start" = Return (JStr s)
    /\ dt_parse s = Return (mkDatetime wall (Some offset)).

(** The request that the construction of the client sends, for the
    settings that [load] has returned. *)
Definition user_request (st : config.VerthandiSettings) : request Params :=
  mkRequest GET (config.BASE_URL st ++ "/user")
            (init_headers default_headers (config.API_KEY st)) None None.

(** The row of [entry] when the clock reads [reading]. *)
Definition shows (entry : json) (reading : Z) (row : list string) : Prop :=
  exists (description interval : json) (d s delta : string),
    subscript entry "description" = Return description
    /\ cell description = Return d
    /\ subscript entry "timeInterval" = Return interval
    /\ subscript interval "start" = Return (JStr s)
    /\ get_timedelta dt_parse reading s = Return delta
    /\ row = [d; s; delta].

End Commands.

End commands.

(** ** More shapes of base URL *)

Module base_urls.

Import PyStr urllib.

(** [old in s]. *)
Fixpoint occurs (old s : string) : bool :=
  startswith old s
  || match s with
     | EmptyString => false
     | String _ s' => occurs old s'
     end.



End base_urls.

(** ** [tasks.py]: the tasks of the developer *)

Module tasks.

(** What ends a task early: a name that is not defined, a command that
    failed and was not run with [warn=True], or the [Exit] of [invoke]. *)
Inductive failure : Type :=
  | NameError (name : string)
  | UnexpectedExit (code : Z)
  | Exit (code : Z).

Inductive outcome (A : Type) : Type :=
  | Done (a : A)
  | Failed (f : failure).

Arguments Done {A} a.
Arguments Failed {A} f.

(** What a task does that can be seen: a command run by [c.run] in the
    directory of the enclosing [c.cd], with its exit code; a [print]; the
    [print] of a centred text; the report table of [check], with the footer
    of its second column and its rows. *)
Inductive event : Type :=
  | Run (cwd command : string) (exited : Z)
  | Say (text : string)
  | SayCentered (text : string)
  | Report (footer : string) (rows : list (string * string)).

(** A task: from the events so far to its result, an exit code where the
    source returns the result of [c.run], and the events after it. *)
Definition task (A : Type) : Type := list event -> outcome A * list event.

Definition and_then {A B : Type} (t : task A) (k : A -> task B) : task B :=
  fun tr =>
    match t tr with
    | (Done a, tr') => k a tr'
    | (Failed f, tr') => (Failed f, tr')
    end.

Definition done {A : Type} (a : A) : task A := fun tr => (Done a, tr).
Definition fail {A : Type} (f : failure) : task A := fun tr => (Failed f, tr).
Definition say (text : string) : task unit := fun tr => (Done tt, (tr ++ [Say text])%list).

(** [if flag: ...] around a block that returns nothing. *)
Definition when (flag : bool) (t : task unit) : task unit :=
  if flag then t else done tt.

Definition APP_NAME : string := "verthandi".

(** [' '.join(args)]. *)
Definition join (args : list string) : string := String.concat " " args.

Definition _code_to_stat (exit_code : Z) (underline emoji : bool) : string :=
  let r := if (exit_code =? 0)%Z then "PASS" else "FAIL" in
  let r :=
    if (exit_code =? 0)%Z then "[green]" ++ r ++ "[/green]"
    else "[red]" ++ r ++ "[/red]" in
  let r := if underline then "[underline]" ++ r ++ "[/underline]" else r in
  if emoji then
    if (exit_code =? 0)%Z then r ++ " :sunglasses:" else r ++ " :cold_sweat:"
  else r.

(** A double quote. *)
Definition quote : string := String (ascii_of_nat 34) "".

(** ["-" * 20]. *)
Definition rule : string := String.concat "" (repeat "-" 20).

Section Tasks.

(** [ROOT_DIR] and [APP_DIR], which come from the place of the file, and
    the shell: the exit code of a command in a directory, given the events
    before it. *)
Variable ROOT_DIR : string.
Variable APP_DIR : string.
Variable shell : list event -> string -> string -> Z.

(** [c.run(command, warn=warn)] inside [with c.cd(cwd)], reduced to the
    [exited] of its result. *)
Definition run (cwd command : string) (warn : bool) : task Z :=
  fun tr =>
    let code := shell tr cwd command in
    let tr' := (tr ++ [Run cwd command code])%list in
    if warn || (code =? 0)%Z then (Done code, tr')
    else (Failed (UnexpectedExit code), tr').

Definition test (coverage verbose : bool) : task Z :=
  let args :=
    ((if coverage then [("--cov=" ++ APP_NAME)%string; "--cov-report=term-missing"] else [])
     ++ (if verbose then ["-v"] else []))%list in
  run APP_DIR ("pytest " ++ join args ++ " .") true.

Definition coverage : task Z :=
  run APP_DIR "coverage report --fail-under=100" true.

Definition lint : task Z :=
  run ROOT_DIR ("pylint " ++ APP_DIR) true.

(** [FOLDERS] is defined nowhere in the module. *)
Definition fixmes : task Z := fail (NameError "FOLDERS").

Definition mypy : task Z :=
  run ROOT_DIR ("mypy --config-file .mypy.ini " ++ APP_DIR) true.

Definition black (check diff : bool) : task Z :=
  let args :=
    ((if check then ["--check"] else []) ++ (if diff then ["--diff"] else []))%list in
  run APP_DIR ("black " ++ join args ++ " .") true.

Definition isort (check diff : bool) : task Z :=
  let args :=
    ((if check then ["--check-only"] else []) ++ (if diff then ["--diff"] else []))%list in
  run APP_DIR ("isort " ++ join args ++ " " ++ APP_DIR) true.

Definition format (check diff : bool) : task Z :=
  and_then (black check diff) (fun black_ =>
  and_then (isort check diff) (fun isort_ =>
  done (black_ + isort_)%Z)).

Definition docs (port : Z) (build verbose : bool) : task Z :=
  let args := if verbose then ["--verbose"] else [] in
  if build then run APP_DIR ("mkdocs build " ++ join args) true
  else run APP_DIR ("mkdocs serve -a 0.0.0.0:" ++ str_of_Z port ++ " " ++ join args) false.

(** [APP_PATH_NAMES] is defined nowhere in the module either. *)
Definition clean (coverage setuppy testdb pyc docs_ silent : bool) : task unit :=
  and_then (when coverage
    (and_then (when (negb silent) (say "Cleaning up after coverage..."))
       (fun _ => and_then (run APP_DIR "rm .coverage* || true" false)
                          (fun _ => done tt)))) (fun _ =>
  and_then (when setuppy
    (and_then (when (negb silent) (say "Cleaning up after setup.py..."))
       (fun _ => and_then (run APP_DIR "rm setup.py || true" false)
                          (fun _ => fail (NameError "APP_PATH_NAMES"))))) (fun _ =>
  and_then (when testdb
    (and_then (when (negb silent) (say "Cleaning up after testing database..."))
       (fun _ => and_then (run APP_DIR "rm test.db || true" false)
                          (fun _ => done tt)))) (fun _ =>
  and_then (when pyc
    (and_then (when (negb silent) (say "Cleaning up .pyc and __pycache__..."))
       (fun _ => and_then
                   (run APP_DIR
                      ("find . | grep -E " ++ quote ++ "(__pycache__|\.pyc|\.pyo$)"
                       ++ quote ++ " | xargs rm -rf || true")
                      false)
                   (fun _ => done tt)))) (fun _ =>
  when docs_
    (and_then (when (negb silent) (say "Cleaning up docs site..."))
       (fun _ => and_then (run APP_DIR "rm -r site || true" false)
                          (fun _ => done tt))))))).

(** One block of [check]: three lines, then the task, whose exit code goes
    into [results] under [key]. *)
Definition block (enabled : bool) (title key : string) (t : task Z)
    (results : list (string * Z)) : task (list (string * Z)) :=
  if enabled then
    and_then (say rule) (fun _ =>
    and_then (say title) (fun _ =>
    and_then (say rule) (fun _ =>
    and_then t (fun exited =>
    done (results ++ [(key, exited)])%list))))
  else done results.

(** The blocks of [check], in the order of the source. *)
Definition checks (lint_ fixmes_ test_ coverage_ mypy_ black_ isort_ docs_ : bool)
    : task (list (string * Z)) :=
  and_then (block lint_ "Running pylint..." "lint" lint []) (fun results =>
  and_then (block fixmes_ "Running pylint (fixmes)..." "FIXME's" fixmes results) (fun results =>
  and_then (block test_ "Running tests..." "test" (test true false) results) (fun results =>
  and_then (block coverage_ "Reporting test coverage..." "coverage" coverage results) (fun results =>
  and_then (block mypy_ "Running mypy..." "mypy" mypy results) (fun results =>
  and_then (block black_ "Running black (formatting, just checking)..." "black"
              (black true false) results) (fun results =>
  and_then (block isort_ "Running isort (formatting, just checking)..." "isort"
              (isort true false) results) (fun results =>
  block docs_ "Running mkdocs..." "docs" (docs 8002 true false) results))))))).

(** [any(results.values())]. *)
Definition any_nonzero (results : list (string * Z)) : bool :=
  existsb (fun kv => negb (snd kv =? 0)%Z) results.

Definition exit_msg (result : Z) : string :=
  if (result =? 0)%Z then
    "Congratulations :sparkles::fireworks::sparkles: "
    ++ "You may commit! :heavy_check_mark:"
  else
    "Great code dude :+1:, but it could use some final touches. "
    ++ "Don't commit just yet! :x:".

Definition report_rows (results : list (string * Z)) : list (string * string) :=
  map (fun kv => (fst kv, _code_to_stat (snd kv) false true)) results.

Definition check (lint_ fixmes_ test_ coverage_ mypy_ black_ isort_ docs_ clean_ : bool)
    : task unit :=
  and_then (checks lint_ fixmes_ test_ coverage_ mypy_ black_ isort_ docs_) (fun results =>
  let result := if any_nonzero results then 1%Z else 0%Z in
  and_then (say (String PyStr.LF "")) (fun _ =>
  and_then (fun tr =>
              (Done tt,
               (tr ++ [Report ("[bold]" ++ _code_to_stat result true true ++ "[/bold]")
                              (report_rows results)])%list)) (fun _ =>
  and_then (fun tr =>
              (Done tt,
               (tr ++ [SayCentered ("[underline bold]" ++ exit_msg result
                                    ++ "[/underline bold]")])%list)) (fun _ =>
  and_then (say (String PyStr.LF "")) (fun _ =>
  and_then (when clean_ (clean true false true true true true)) (fun _ =>
  fail (Exit result))))))).

End Tasks.

(** *** What the properties below are stated with *)

(** [s.endswith(suffix)]. *)
Definition endswith (suffix s : string) : bool :=
  String.eqb (PyStr.drop (String.length s - String.length suffix) s) suffix.

(** A shell in which a command that ends with [|| true] exits with 0. *)
Definition or_true_exits_0 (shell : list event -> string -> string -> Z) : Prop :=
  forall tr cwd command,
    endswith "|| true" command = true -> shell tr cwd command = 0%Z.

(** The keys of [results] for the blocks of [check] that are enabled. *)
Definition enabled_keys (lint_ test_ coverage_ mypy_ black_ isort_ docs_ : bool)
    : list string :=
  ((if lint_ then ["lint"] else []) ++ (if test_ then ["test"] else [])
   ++ (if coverage_ then ["coverage"] else []) ++ (if mypy_ then ["mypy"] else [])
   ++ (if black_ then ["black"] else []) ++ (if isort_ then ["isort"] else [])
   ++ (if docs_ then ["docs"] else []))%list.

(** A task that returns whatever the events before it are. *)
Definition returns (t : task Z) : Prop :=
  forall tr, exists code tr', t tr = (Done code, tr').

Definition is_run (ev : event) : bool :=
  match ev with
  | Run _ _ _ => true
  | Say _ | SayCentered _ | Report _ _ => false
  end.

End tasks.

(** ** The specification, word for word

    What the specification says of the reports URL and of the settings
    that [load] returns, written down from its words and not from the
    code, to be compared with what the code computes. *)

Module as_stated.

Import PyStr.




(** The API key that a settings file holds: a string, or null when the
    file has none. *)
Definition stored_api_key (doc : gmap string config.toml_value) : option string :=
  match doc !! "API_KEY" with
  | Some (config.TString k) => Some k
  | _ => None
  end.

End as_stated.

(** ** Concrete instances, used to run the definitions *)

Module sample.

Import client.

(** A service that answers every request with the same user document. *)
Definition user_document : json :=
  JDict [("id", JStr "u-17"); ("defaultWorkspace", JStr "w-42");
         ("name", JStr "Urd")].

Definition remote (seen : list (request string)) (rq : request string)
    : result response :=
  Return (mkResponse 200 "{...}").

Definition json_loads (body : string) : result json := Return user_document.

Definition json_dumps (body : option string) : result string :=
  Return (default "null" body).

Definition str_of_container (v : json) : string := "[...]".

Definition check_ok (n : string) : bool := true.

Definition settings : config.VerthandiSettings :=
  config.mkSettings config.default_BASE_URL None.

Definition user_config_dir : string := "/home/urd/.config/Verthandi".

(** [tomlkit] on the documents of the settings file: a string is written
    between quotes, and the text so written is read back. *)
Definition toml_basic_string (v : string) : string :=
  String (ascii_of_nat 34) (v ++ String (ascii_of_nat 34) "").

Definition settings_text : string :=
  "BASE_URL = " ++ toml_basic_string "https://api.example.com/v1"
  ++ String PyStr.LF ("API_KEY = " ++ toml_basic_string "secret" ++ String PyStr.LF "").

Definition tomlkit_parse (text : string) : result (gmap string config.toml_value) :=
  if String.eqb text settings_text
  then Return (<["BASE_URL" := config.TString "https://api.example.com/v1"]>
                 (<["API_KEY" := config.TString "secret"]> ∅))
  else if String.eqb text "" then Return ∅
  else Raise (LibraryError "tomlkit.exceptions.ParseError").

(** A settings file at the default place. *)
Definition a_filesystem : config.filesystem :=
  {[ config._get_appdirs_path user_config_dir
     := config.mkFile true true settings_text ]}.

(** A client as [__init__] leaves it. *)
Definition a_client : ClockifyClient :=
  mkClient (mkSession ∅) "https://api.example.com/v1"
           (Some (mkDefaults (JStr "w-42") (JStr "u-17"))).

(** An environment that sets both settings, and the settings it gives. *)
Definition environment : gmap string string :=
  {[ "base_url" := "https://api.example.com/v1"; "api_key" := "secret" ]}.

Definition some_settings : config.VerthandiSettings :=
  config.mkSettings "https://api.example.com/v1" (Some "secret").

(** A settings file that holds the base URL and no API key, a [tomlkit]
    that reads it too, and an environment that sets the key. *)
Definition text_without_key : string :=
  "BASE_URL = " ++ toml_basic_string "https://api.example.com/v1"
  ++ String PyStr.LF "".

Definition document_without_key : gmap string config.toml_value :=
  {[ "BASE_URL" := config.TString "https://api.example.com/v1" ]}.

Definition tomlkit_parse_files (text : string)
    : result (gmap string config.toml_value) :=
  if String.eqb text text_without_key then Return document_without_key
  else tomlkit_parse text.

Definition a_filesystem_without_key : config.filesystem :=
  {[ config._get_appdirs_path user_config_dir
     := config.mkFile true true text_without_key ]}.

Definition environment_with_key : gmap string string :=
  {[ "api_key" := "key-of-the-environment" ]}.

(** A settings file that nobody may read or write. *)
Definition a_locked_filesystem : config.filesystem :=
  {[ config._get_appdirs_path user_config_dir
     := config.mkFile false false settings_text ]}.

(** A service that refuses the key: its answer is an error document. *)
Definition error_document : json :=
  JDict [("message", JStr "Api key does not exist"); ("code", JInt 1000)].

Definition remote_refusing (seen : list (request string)) (rq : request string)
    : result response :=
  Return (mkResponse 401 "{error}").

Definition json_loads_error (body : string) : result json :=
  Return error_document.

(** A shell in which only [mypy] fails. *)
Definition shell (tr : list tasks.event) (cwd command : string) : Z :=
  if tasks.endswith "|| true" command then 0%Z
  else if PyStr.startswith "mypy" command then 1%Z else 0%Z.

(** Two entries in progress, as the service lists them. *)
Definition an_entry (description start : string) : json :=
  JDict [("id", JStr "e-1"); ("description", JStr description);
         ("timeInterval", JDict [("start", JStr start); ("end", JNull)])].

Definition two_entries : json :=
  JList [an_entry "Weaving" "2021-03-04T12:00:00Z";
         an_entry "Spinning" "2021-03-04T13:00:00Z"].

Definition json_loads_entries (body : string) : result json := Return two_entries.

Definition remote_list (seen : list (request commands.Params))
    (rq : request commands.Params) : result response :=
  Return (mkResponse 200 "[...]").

Definition json_dumps_body (body : option commands.Body) : result string :=
  Return "{body}".

(** A service that answers the user request with the user document and
    every other request with a refusal. *)
Definition remote_refusing_entries (seen : list (request commands.Params))
    (rq : request commands.Params) : result response :=
  match method rq with
  | GET => Return (mkResponse 200 "{user}")
  | POST | PATCH => Return (mkResponse 400 "{error}")
  end.

Definition json_loads_by_text (body : string) : result json :=
  if String.eqb body "{user}" then Return user_document
  else Return (JDict [("message", JStr "Bad request"); ("code", JInt 501)]).

(** An encoder that refuses every body. *)
Definition json_dumps_refusing (body : option commands.Body) : result string :=
  Raise (TypeError "Type is not JSON serializable").

(** An answer that is an empty list but for one entry without description. *)
Definition entries_with_a_bad_one : json :=
  JList [an_entry "Weaving" "2021-03-04T12:00:00Z";
         JDict [("id", JStr "e-2")];
         an_entry "Spinning" "2021-03-04T13:00:00Z"].

Definition json_loads_bad_entries (body : string) : result json :=
  Return entries_with_a_bad_one.

Definition remote_refusing_all (seen : list (request commands.Params))
    (rq : request commands.Params) : result response :=
  Return (mkResponse 401 "{error}").

(** A process with the client [a_client], before any command. *)
Definition a_process : commands.process :=
  commands.mkProcess (mkWorld a_client []) 0 [].

(** A clock that stands still. *)
Definition still_clock (n : nat) : Z := 1614862923250000%Z.

(** A console that prints a table unless one of its cells holds a closing
    tag, for which [rich] finds no tag to close. *)
Definition console_print (columns : list string) (rows : list (list string))
    : result unit :=
  if forallb (forallb (fun c => negb (base_urls.occurs "[/" c))) (columns :: rows)
  then Return tt
  else Raise (LibraryError "rich.errors.MarkupError").

(** An entry whose description is not console markup. *)
Definition entries_with_a_tag : json :=
  JList [an_entry "fix [/api] route" "2021-03-04T12:00:00Z"].

Definition json_loads_tag (body : string) : result json :=
  Return entries_with_a_tag.

(** A parser for the timestamps that the service sends,
    [YYYY-MM-DDTHH:MM:SSZ]; anything else is refused. *)
Definition digit (c : ascii) : option Z :=
  if PyStr.isdigit c then Some (Z.of_nat (PyStr.code c) - 48)%Z else None.

Fixpoint number_from (acc : Z) (s : string) : option Z :=
  match s with
  | EmptyString => Some acc
  | String c s' => d ← digit c; number_from (acc * 10 + d)%Z s'
  end.

(** Days since 1970-01-01 of a date of the Gregorian calendar. *)
Definition days_from_civil (y m d : Z) : Z :=
  (let y := if Z.leb m 2 then y - 1 else y in
   let era := y / 400 in
   let yoe := y - era * 400 in
   let doy := (153 * (if Z.leb m 2 then m + 9 else m - 3) + 2) / 5 + d - 1 in
   let doe := yoe * 365 + yoe / 4 - yoe / 100 + doy in
   era * 146097 + doe - 719468)%Z.

Definition dt_parse (s : string) : result cli.datetime :=
  let field i j := number_from 0 (PyStr.slice i j s) in
  let separators :=
    PyStr.slice 4 5 s ++ PyStr.slice 7 8 s ++ PyStr.slice 10 11 s
    ++ PyStr.slice 13 14 s ++ PyStr.slice 16 17 s ++ PyStr.drop 19 s in
  match field 0 4, field 5 7, field 8 10, field 11 13, field 14 16, field 17 19 with
  | Some y, Some m, Some d, Some hh, Some mm, Some ss =>
      if String.eqb separators "--T::Z"
      then Return (cli.mkDatetime
                     ((((days_from_civil y m d * 24 + hh) * 60 + mm) * 60 + ss)
                      * cli.us_per_second)%Z
                     (Some 0%Z))
      else Raise (ValueError "Unknown string format")
  | _, _, _, _, _, _ => Raise (ValueError "Unknown string format")
  end.

(** The same parser for timestamps without the [Z]: the result is naive. *)
Definition dt_parse_naive (s : string) : result cli.datetime :=
  match dt_parse (s ++ "Z") with
  | Return t => Return (cli.mkDatetime (cli.wall t) None)
  | Raise e => Raise e
  end.

(** The clock at a quarter of a second past 2021-03-04 13:02:03 UTC. *)
Definition clock : Z :=
  match dt_parse "2021-03-04T13:02:03Z" with
  | Return t => (cli.wall t + 250000)%Z
  | Raise _ => 0%Z
  end.


End sample.

(** * Properties *)

(** ** The URL builder *)

Section GetUrl.

Import client.

Variable _check_bracketed_netloc : string -> bool.
Variable nfkc_netloc_ok : string -> bool.
Variable str_of_container : json -> string.

Abbreviation get_url :=
  (_get_url _check_bracketed_netloc nfkc_netloc_ok str_of_container).

(** C1. The URL builder returns [base/e] for a plain endpoint,
    [base/workspaces/W/e] for a workspace endpoint and
    [base/workspaces/W/user/U/e] for a workspace-user endpoint; an identifier
    that is left out is replaced by the one cached in [_defaults] (as it is
    when that one is a string, as an f-string renders it otherwise). With
    base [https://api.example.com/v1], the plain URL of [user] is
    [https://api.example.com/v1/user] and the workspace URL of [x] in
    workspace [W] is [https://api.example.com/v1/workspaces/W/x]. *)
Theorem get_url_shapes :
  forall (s : Session) (base : string) (od : option Defaults) (d : Defaults)
         (e W U Wd Ud : string) (ow ou : option string),
    let any := mkClient s base od in
    let c := mkClient s base (Some d) in
    let cs := mkClient s base (Some (mkDefaults (JStr Wd) (JStr Ud))) in
    let ex := mkClient s "https://api.example.com/v1" od in
    (* plain *)
    get_url any e None ow ou = Return (base ++ "/" ++ e)
    (* workspace-scoped *)
    /\ get_url any e (Some workspace) (Some W) ou
       = Return (base ++ "/workspaces/" ++ W ++ "/" ++ e)
    /\ get_url c e (Some workspace) None ou
       = Return (base ++ "/workspaces/"
                 ++ format_value str_of_container (workspaceId d) ++ "/" ++ e)
    /\ get_url cs e (Some workspace) None ou
       = Return (base ++ "/workspaces/" ++ Wd ++ "/" ++ e)
    (* workspace-user-scoped *)
    /\ get_url any e (Some workspace_user) (Some W) (Some U)
       = Return (base ++ "/workspaces/" ++ W ++ "/user/" ++ U ++ "/" ++ e)
    /\ get_url c e (Some workspace_user) None (Some U)
       = Return (base ++ "/workspaces/"
                 ++ format_value str_of_container (workspaceId d)
                 ++ "/user/" ++ U ++ "/" ++ e)
    /\ get_url c e (Some workspace_user) (Some W) None
       = Return (base ++ "/workspaces/" ++ W ++ "/user/"
                 ++ format_value str_of_container (userId d) ++ "/" ++ e)
    /\ get_url c e (Some workspace_user) None None
       = Return (base ++ "/workspaces/"
                 ++ format_value str_of_container (workspaceId d) ++ "/user/"
                 ++ format_value str_of_container (userId d) ++ "/" ++ e)
    /\ get_url cs e (Some workspace_user) None None
       = Return (base ++ "/workspaces/" ++ Wd ++ "/user/" ++ Ud ++ "/" ++ e)
    (* the two URLs of the specification *)
    /\ get_url ex "user" None None None
       = Return "https://api.example.com/v1/user"
    /\ get_url ex "x" (Some workspace) (Some "W") None
       = Return "https://api.example.com/v1/workspaces/W/x".
Proof.
  intros; repeat split; reflexivity.
Qed.

End GetUrl.

(** ** The client and its HTTP session *)

Section ClientProperties.

Import client.

Variable settings : config.VerthandiSettings.
Variable _check_bracketed_netloc : string -> bool.
Variable nfkc_netloc_ok : string -> bool.
Variable Params : Type.
Variable Body : Type.
Variable default_headers : gmap string string.
Variable remote : list (request Params) -> request Params -> result response.
Variable json_loads : string -> result json.
Variable json_dumps : option Body -> result string.
Variable str_of_container : json -> string.

Abbreviation get_url :=
  (_get_url _check_bracketed_netloc nfkc_netloc_ok str_of_container).
Abbreviation fmt := (format_value str_of_container).
Abbreviation world := (client.world Params).
Abbreviation one_call := (client.one_call Params remote json_loads).
Abbreviation init_headers := (client.init_headers default_headers).
Abbreviation init :=
  (__init__ settings _check_bracketed_netloc nfkc_netloc_ok Params
            default_headers remote json_loads str_of_container).
Abbreviation do_get_user :=
  (get_user _check_bracketed_netloc nfkc_netloc_ok Params remote json_loads
            str_of_container).
Abbreviation do_list :=
  (list_timeentry _check_bracketed_netloc nfkc_netloc_ok Params remote
                  json_loads str_of_container).
Abbreviation do_start :=
  (start_timeentry _check_bracketed_netloc nfkc_netloc_ok Params Body remote
                   json_loads json_dumps str_of_container).
Abbreviation do_stop :=
  (stop_timeentry _check_bracketed_netloc nfkc_netloc_ok Params Body remote
                  json_loads json_dumps str_of_container).
Abbreviation run :=
  (perform_all _check_bracketed_netloc nfkc_netloc_ok Params Body remote
               json_loads json_dumps str_of_container).
Abbreviation step :=
  (perform _check_bracketed_netloc nfkc_netloc_ok Params Body remote
           json_loads json_dumps str_of_container).

Lemma decode_session_request (m : http_method) (u : string)
    (params : option Params) (body : option string) (w : world) :
  decode Params json_loads (session_request Params remote m u params body w)
  = one_call w (mkRequest m u (headers (_session (self w))) params body).
Proof.
  unfold decode, session_request, one_call.
  destruct (remote _ _); reflexivity.
Qed.

Lemma get_user_one_call (w : world) :
  do_get_user w
  = one_call w (mkRequest GET (_base_url (self w) ++ "/user")
                          (headers (_session (self w))) None None).
Proof.
  unfold get_user; cbn [_get_url]. apply decode_session_request.
Qed.

Lemma one_call_self (w : world) (rq : request Params) :
  self (snd (one_call w rq)) = self w.
Proof. reflexivity. Qed.

Lemma perform_self (op : operation Params Body) (w : world) :
  self (snd (step op w)) = self w.
Proof.
  destruct op; cbn [perform].
  - rewrite get_user_one_call. reflexivity.
  - unfold list_timeentry.
    destruct (get_url _ _ _ _ _); [rewrite decode_session_request|]; reflexivity.
  - unfold start_timeentry.
    destruct (get_url _ _ _ _ _); [|reflexivity].
    destruct (json_dumps _); [rewrite decode_session_request|]; reflexivity.
  - unfold stop_timeentry.
    destruct (get_url _ _ _ _ _); [|reflexivity].
    destruct (json_dumps _); [rewrite decode_session_request|]; reflexivity.
Qed.


(** Whatever happens in [__init__], one request has gone out when it is
    left: the [GET] of the user. *)
Lemma init_sends_one_request (api_key base_url : option string)
    (sent0 : list (request Params)) :
  let w := snd (init api_key base_url sent0) in
  sent w = (sent0 ++ [mkRequest GET (default (config.BASE_URL settings) base_url ++ "/user")
                                (init_headers api_key) None None])%list
  /\ headers (_session (self w)) = init_headers api_key
  /\ _base_url (self w) = default (config.BASE_URL settings) base_url.
Proof.
  unfold __init__. rewrite get_user_one_call. unfold one_call. cbn [self sent _base_url _session headers].
  destruct (_ ≫= _) as [user_data|]; cbn; [|auto].
  destruct (subscript user_data "defaultWorkspace"); cbn; [|auto].
  destruct (subscript user_data "id"); cbn; auto.
Qed.

(** C9. The [X-Api-Key] header is set on the session by every construction
    of the client, and the request that [__init__] sends carries it; for the
    key [None] and for the empty key its value is the empty string. *)
Theorem api_key_header_always_set :
  forall (api_key base_url : option string) (sent0 : list (request Params)),
    let w := snd (init api_key base_url sent0) in
    headers (_session (self w)) !! "X-Api-Key" = Some (or_empty api_key)
    /\ (exists rq, sent w = (sent0 ++ [rq])%list
                   /\ req_headers rq !! "X-Api-Key" = Some (or_empty api_key))
    /\ or_empty None = ""
    /\ or_empty (Some "") = "".
Proof.
  intros api_key base_url sent0 w.
  destruct (init_sends_one_request api_key base_url sent0) as (Hsent & Hh & _).
  fold w in Hsent, Hh.
  assert (Hkey : init_headers api_key !! "X-Api-Key" = Some (or_empty api_key)).
  { unfold init_headers. rewrite lookup_insert_ne by discriminate.
    apply lookup_insert_eq. }
  repeat split.
  - rewrite Hh. exact Hkey.
  - eexists. split; [exact Hsent|]. exact Hkey.
Qed.


(** C8. Each operation is one HTTP call, with its method and its URL, whose
    answer is decoded as JSON; an exception of the transport or of the
    decoder is the outcome of the operation, and the status of the answer is
    not looked at. [start_timeentry] and [stop_timeentry] send the encoded
    body. *)
Theorem operations_are_one_call :
  forall (w : world) (d : Defaults) (workspace_id user_id : option string)
         (params : option Params) (body : option Body) (payload : string),
    _defaults (self w) = Some d ->
    json_dumps body = Return payload ->
    let base := _base_url (self w) in
    let hdrs := headers (_session (self w)) in
    let W := default (fmt (workspaceId d)) workspace_id in
    let U := default (fmt (userId d)) user_id in
    do_get_user w
    = one_call w (mkRequest GET (base ++ "/user") hdrs None None)
    /\ do_list workspace_id user_id params w
       = one_call w (mkRequest GET
                       (base ++ "/workspaces/" ++ W ++ "/user/" ++ U ++ "/time-entries")
                       hdrs params None)
    /\ do_start workspace_id body params w
       = one_call w (mkRequest POST
                       (base ++ "/workspaces/" ++ W ++ "/time-entries")
                       hdrs params (Some payload))
    /\ do_stop workspace_id user_id body params w
       = one_call w (mkRequest PATCH
                       (base ++ "/workspaces/" ++ W ++ "/user/" ++ U ++ "/time-entries")
                       hdrs params (Some payload)).
Proof.
  intros w d workspace_id user_id params body payload Hd Hbody base hdrs W U.
  split; [apply get_user_one_call|].
  unfold list_timeentry, start_timeentry, stop_timeentry, _get_url, default_id.
  rewrite Hd, Hbody.
  destruct workspace_id, user_id; cbn [mbind result_bind];
    rewrite !decode_session_request; repeat split.
Qed.

(** A body that [json.dumps] refuses: its exception is the outcome and no
    request goes out. *)
Lemma start_timeentry_unencodable_body (w : world) (d : Defaults)
    (workspace_id : option string) (params : option Params)
    (body : option Body) (e : exn) :
  _defaults (self w) = Some d ->
  json_dumps body = Raise e ->
  do_start workspace_id body params w = (Raise e, w).
Proof.
  intros Hd Hbody. unfold start_timeentry, _get_url, default_id.
  rewrite Hd, Hbody. destruct workspace_id; reflexivity.
Qed.

End ClientProperties.


Lemma operations_are_one_call_witness :
  let w := client.mkWorld (Params := string) sample.a_client [] in
  client.start_timeentry sample.check_ok sample.check_ok string string
    sample.remote sample.json_loads sample.json_dumps sample.str_of_container
    None (Some "{}") None w
  = client.one_call string sample.remote sample.json_loads w
      (client.mkRequest client.POST
         "https://api.example.com/v1/workspaces/w-42/time-entries"
         ∅ None (Some "{}")).
Proof.
  exact (proj1 (proj2 (proj2
    (operations_are_one_call sample.check_ok sample.check_ok string string
       sample.remote sample.json_loads sample.json_dumps sample.str_of_container
       (client.mkWorld (Params := string) sample.a_client [])
       (client.mkDefaults (client.JStr "w-42") (client.JStr "u-17"))
       None None None (Some "{}") "{}" eq_refl eq_refl)))).
Defined.

(** ** The elapsed time of the [list] command *)

Section Elapsed.

Import cli.
Local Open Scope Z_scope.

Variable dt_parse : string -> result datetime.

Lemma divmod_60 (a b : Z) :
  0 <= b < 60 -> (a * 60 + b) / 60 = a /\ (a * 60 + b) mod 60 = b.
Proof. intros Hb. Z.div_mod_to_equations. lia. Qed.




End Elapsed.

(** Beyond whole seconds below one day, [timedelta.__str__] writes more:
    the days in front, the microseconds behind. *)
Example get_timedelta_over_a_day :
  cli.get_timedelta sample.dt_parse sample.clock "2021-03-03T12:00:00Z"
  = Return "1 day, 1:02:03".
Proof. vm_compute. reflexivity. Qed.

Example str_timedelta_fraction :
  cli.str_timedelta (cli.timedelta_of_us 3722500000) = "1:02:02.500000".
Proof. vm_compute. reflexivity. Qed.



(** ** The reports URL *)

Section StringFacts.

Import PyStr.
#[local] Arguments String.append !s1 s2 : simpl nomatch.

Lemma app_assoc_str (a b c : string) : (a ++ b) ++ c = a ++ (b ++ c).
Proof. induction a as [|x a IH]; cbn; [reflexivity|now rewrite IH]. Qed.

Lemma contains_app (c : ascii) (a b : string) :
  contains c (a ++ b) = contains c a || contains c b.
Proof.
  induction a as [|x a IH]; cbn; [reflexivity|].
  rewrite IH. apply orb_assoc.
Qed.

Lemma all_app (p : ascii -> bool) (a b : string) :
  all p (a ++ b) = all p a && all p b.
Proof.
  induction a as [|x a IH]; cbn; [reflexivity|].
  rewrite IH. apply andb_assoc.
Qed.

Lemma all_excludes (p : ascii -> bool) (c : ascii) (s : string) :
  p c = false -> all p s = true -> contains c s = false.
Proof.
  intros Hc. induction s as [|x s IH]; cbn; [reflexivity|].
  intros [Hx Hs]%andb_true_iff. rewrite (IH Hs), orb_false_r.
  destruct (Ascii.eqb_spec x c) as [->|]; [congruence|reflexivity].
Qed.

Lemma all_impl (p q : ascii -> bool) (s : string) :
  (forall c, p c = true -> q c = true) -> all p s = true -> all q s = true.
Proof.
  intros Hpq. induction s as [|x s IH]; cbn; [reflexivity|].
  intros [Hx Hs]%andb_true_iff. now rewrite (Hpq x Hx), (IH Hs).
Qed.

Lemma remove_absent (c : ascii) (s : string) :
  contains c s = false -> remove c s = s.
Proof.
  induction s as [|x s IH]; cbn; [reflexivity|].
  intros [Hx Hs]%orb_false_iff. now rewrite Hx, (IH Hs).
Qed.

Lemma find_absent (c : ascii) (s : string) :
  contains c s = false -> find c s = None.
Proof.
  induction s as [|x s IH]; cbn; [reflexivity|].
  intros [Hx Hs]%orb_false_iff. now rewrite Hx, (IH Hs).
Qed.

Lemma find_app_absent (c : ascii) (a b : string) :
  contains c a = false ->
  find c (a ++ b) = (fun i => String.length a + i) <$> find c b.
Proof.
  induction a as [|x a IH]; cbn.
  - intros _. now destruct (find c b).
  - intros [Hx Ha]%orb_false_iff. rewrite Hx, (IH Ha).
    now destruct (find c b).
Qed.

Lemma take_app_length (a b : string) : take (String.length a) (a ++ b) = a.
Proof. induction a as [|x a IH]; cbn; [now destruct b|now rewrite IH]. Qed.

Lemma drop_app_length (a b : string) : drop (String.length a) (a ++ b) = b.
Proof. induction a as [|x a IH]; cbn; [now destruct b|exact IH]. Qed.

Lemma length_app_str (a b : string) :
  String.length (a ++ b) = String.length a + String.length b.
Proof. induction a as [|x a IH]; cbn; [reflexivity|now rewrite IH]. Qed.


Lemma lower_truthy (s : string) : truthy (lower s) = truthy s.
Proof. now destruct s. Qed.

End StringFacts.

Section ReportsUrl.

Import PyStr urllib client.
#[local] Arguments String.append !s1 s2 : simpl nomatch.

Lemma alpha_not_c0 (c : ascii) :
  isascii_alpha c = true -> is_c0_control_or_space c = false.
Proof. destruct c as [[] [] [] [] [] [] [] []]; vm_compute; congruence. Qed.

Section ParseBase.

Variable chk nfkc : string -> bool.
Variable s n p : string.
Hypothesis Hs : scheme_ok s = true.
Hypothesis Hn : netloc_ok n = true.
Hypothesis Hp : path_ok p = true.

Lemma scheme_all : all is_scheme_char s = true.
Proof.
  unfold scheme_ok in Hs. destruct s; [discriminate|].
  now apply andb_true_iff in Hs as [_ ?].
Qed.

Lemma netloc_all : all netloc_char n = true.
Proof. unfold netloc_ok in Hn. now apply andb_true_iff in Hn as [_ ?]. Qed.

Lemma path_all : all path_char p = true.
Proof. unfold path_ok in Hp. now apply andb_true_iff in Hp as [_ ?]. Qed.

Lemma base_no (c : ascii) :
  is_scheme_char c = false -> netloc_char c = false -> path_char c = false ->
  Ascii.eqb ":" c = false -> Ascii.eqb "/" c = false ->
  contains c (s ++ "://" ++ n ++ p) = false.
Proof.
  intros H1 H2 H3 H4 H5. rewrite contains_app.
  rewrite (all_excludes _ _ _ H1 scheme_all).
  cbn [String.append contains orb].
  rewrite H4, H5, contains_app.
  rewrite (all_excludes _ _ _ H2 netloc_all), (all_excludes _ _ _ H3 path_all).
  reflexivity.
Qed.

Lemma remove_unsafe_base :
  remove_unsafe (s ++ "://" ++ n ++ p) = s ++ "://" ++ n ++ p.
Proof.
  unfold remove_unsafe.
  rewrite (remove_absent TAB) by now apply base_no.
  rewrite (remove_absent CR) by now apply base_no.
  apply remove_absent. now apply base_no.
Qed.

Lemma lstrip_c0_base :
  lstrip_c0 (s ++ "://" ++ n ++ p) = s ++ "://" ++ n ++ p.
Proof.
  unfold scheme_ok in Hs. destruct s as [|c0 s']; [discriminate|].
  apply andb_true_iff in Hs as [Hc0 _]. cbn [String.append lstrip_c0].
  now rewrite (alpha_not_c0 _ Hc0).
Qed.

Lemma splitnetloc_base : _splitnetloc ("//" ++ n ++ p) 2 = (n, p).
Proof.
  unfold _splitnetloc, find_from. cbn [fold_left drop String.append].
  change (drop 2 ("//" ++ n ++ p)) with (n ++ p).
  pose proof netloc_all as Hna. pose proof path_all as Hpa.
  assert (Hq : find "?" (n ++ p) = None).
  { apply find_absent. rewrite contains_app.
    now rewrite (all_excludes netloc_char "?" n), (all_excludes path_char "?" p). }
  assert (Hh : find "#" (n ++ p) = None).
  { apply find_absent. rewrite contains_app.
    now rewrite (all_excludes netloc_char "#" n), (all_excludes path_char "#" p). }
  rewrite Hq, Hh.
  rewrite (find_app_absent "/" n p) by now apply (all_excludes netloc_char).
  cbn [String.length]. rewrite length_app_str.
  assert (Hdelim :
    match (λ i : nat, 2 + i) <$> ((λ i : nat, String.length n + i) <$> find "/" p) with
    | Some wdelim => Nat.min (S (S (String.length n + String.length p))) wdelim
    | None => S (S (String.length n + String.length p))
    end = 2 + String.length n).
  { unfold path_ok in Hp. apply andb_true_iff in Hp as [Hstart _].
    destruct p as [|c p']; cbn [find fmap option_fmap option_map String.length].
    - lia.
    - cbn [truthy negb orb startswith] in Hstart.
      apply andb_true_iff in Hstart as [Hc _].
      rewrite Ascii.eqb_sym in Hc. rewrite Hc.
      cbn [fmap option_fmap option_map]. lia. }
  cbn [fmap option_fmap option_map] in *.
  rewrite Hdelim. unfold slice.
  replace (2 + String.length n - 2) with (String.length n) by lia.
  cbn [drop Nat.add]. now rewrite take_app_length, drop_app_length.
Qed.

Lemma find_colon_base :
  find ":" (s ++ "://" ++ n ++ p) = Some (String.length s).
Proof.
  rewrite find_app_absent by (apply (all_excludes is_scheme_char); [reflexivity|apply scheme_all]).
  cbn [String.append find]. rewrite Ascii.eqb_refl.
  cbn [fmap option_fmap option_map]. f_equal. lia.
Qed.

Lemma urlsplit_base :
  urlsplit chk nfkc (s ++ "://" ++ n ++ p)
  = Return (mkParseResult (lower s) n p "" "" "").
Proof.
  unfold urlsplit. rewrite lstrip_c0_base, remove_unsafe_base, find_colon_base.
  pose proof splitnetloc_base as Hsplit.
  pose proof netloc_all as Hna. pose proof path_all as Hpa.
  pose proof scheme_all as Hsa.
  unfold scheme_ok in Hs. destruct s as [|c0 s'] eqn:Es; [discriminate|].
  apply andb_true_iff in Hs as [Hc0 _].
  cbn [String.length]. rewrite <- Es in *.
  replace (String c0 s' ++ "://" ++ n ++ p) with (s ++ "://" ++ n ++ p) by now rewrite Es.
  assert (Hhead : exists t, s ++ "://" ++ n ++ p = String c0 t).
  { rewrite Es. eexists. reflexivity. }
  destruct Hhead as [t Ht]. rewrite Ht at 1. rewrite Hc0.
  replace (S (String.length s')) with (String.length s) by now rewrite Es.
  rewrite take_app_length, Hsa. cbn [andb].
  change (s ++ "://" ++ n ++ p) with (s ++ String ":" ("//" ++ n ++ p)).
  replace (drop (S (String.length s)) (s ++ String ":" ("//" ++ n ++ p)))
    with ("//" ++ n ++ p).
  2:{ clear. induction s as [|x a IH]; [reflexivity|exact IH]. }
  change (startswith "//" ("//" ++ n ++ p)) with true. cbv iota.
  rewrite Hsplit.
  rewrite (all_excludes netloc_char "[" n), (all_excludes netloc_char "]" n) by easy.
  cbn [andb orb negb mbind result_bind].
  rewrite (all_excludes path_char "#" p), (all_excludes path_char "?" p) by easy.
  unfold _checknetloc.
  rewrite (all_impl netloc_char isascii n), orb_true_r; [reflexivity| |exact Hna].
  intros c Hc. unfold netloc_char in Hc.
  now apply andb_true_iff in Hc as [[? _]%andb_true_iff _].
Qed.

Lemma urlparse_base :
  urlparse chk nfkc (s ++ "://" ++ n ++ p)
  = Return (mkParseResult (lower s) n p "" "" "").
Proof.
  unfold urlparse. rewrite urlsplit_base. cbn [mbind result_bind path scheme].
  rewrite (all_excludes path_char ";" p), andb_false_r by (reflexivity || apply path_all).
  reflexivity.
Qed.

End ParseBase.

Variable _check_bracketed_netloc : string -> bool.
Variable nfkc_netloc_ok : string -> bool.
Variable str_of_container : json -> string.

Abbreviation get_url :=
  (_get_url _check_bracketed_netloc nfkc_netloc_ok str_of_container).

(** For any base URL that [urlparse] accepts, the report URL is put together
    from the components of the base URL, of which only the network location
    has gone through the replacement. *)
Lemma reports_url_components (c : ClockifyClient) (e : string)
    (ow ou : option string) (t : ParseResult) :
  urlparse _check_bracketed_netloc nfkc_netloc_ok (_base_url c) = Return t ->
  get_url c e (Some report) ow ou
  = Return (urlunparse (mkParseResult (scheme t)
                          (replace_first "api" "reports" (netloc t))
                          (path t) (params t) (query t) (fragment t))
            ++ "/" ++ e).
Proof.
  intros Ht. unfold _get_url, _reports_base_url. rewrite Ht. reflexivity.
Qed.


End ReportsUrl.



(** A network location with [api] twice: the first one is replaced. *)
Example reports_url_first_occurrence :
  client._get_url sample.check_ok sample.check_ok sample.str_of_container
    (client.mkClient (client.mkSession ∅) "https://api.rapidapi.com/v1" None)
    "summary" (Some client.report) None None
  = Return "https://reports.rapidapi.com/v1/summary".
Proof. reflexivity. Qed.

(** A host without [api]: the [api] of the path stays. *)
Example reports_url_path_untouched :
  client._get_url sample.check_ok sample.check_ok sample.str_of_container
    (client.mkClient (client.mkSession ∅) "https://clockify.me/api/v1" None)
    "summary" (Some client.report) None None
  = Return "https://clockify.me/api/v1/summary".
Proof. reflexivity. Qed.

(** ** The settings file *)

Section SettingsProperties.

Import config.

Variable user_config_dir : string.
Variable env_vars : gmap string string.
Variable toml_basic_string : string -> string.
Variable tomlkit_parse : string -> result (gmap string toml_value).

Abbreviation default_path := (_get_appdirs_path user_config_dir).
Abbreviation do_load :=
  (load user_config_dir env_vars toml_basic_string tomlkit_parse).
Abbreviation do_save := (save user_config_dir toml_basic_string).

(** C5, amended. When the settings file is a TOML document that matches
    the schema, [load] returns, without touching the file system, settings
    whose [BASE_URL] is the one of the file and whose [API_KEY] is the one
    of the file when the file has one; when the file has none, the key is
    not null but the one of the environment variable, and null only when
    that is not set either. *)
Theorem load_returns_file_values :
  forall (filepath : option string) (fs : filesystem) (f : file)
         (doc : gmap string toml_value),
    fs !! default default_path filepath = Some f ->
    readable f = true ->
    tomlkit_parse (content f) = Return doc ->
    matches_schema doc ->
    exists st : VerthandiSettings,
      do_load filepath fs = (Return st, fs)
      /\ doc !! "BASE_URL" = Some (TString (BASE_URL st))
      /\ (forall k, doc !! "API_KEY" = Some (TString k) -> API_KEY st = Some k)
      /\ (doc !! "API_KEY" = None -> API_KEY st = env_vars !! "api_key").
Proof.
  intros filepath fs f doc Hf Hr Hparse (Hdom & (b & Hb) & Hk).
  unfold load, open_r. rewrite Hf, Hr. cbn [mbind result_bind].
  rewrite Hparse. cbn [mbind result_bind].
  unfold parse_obj, init_settings.
  rewrite bool_decide_eq_true_2 by exact Hdom.
  rewrite Hb. cbn [str_validator mbind result_bind].
  destruct Hk as [Hk | (k & Hk)]; rewrite Hk;
    cbn [str_validator fmap result_fmap mbind result_bind];
    eexists; (split; [reflexivity|]); cbn [BASE_URL API_KEY];
    repeat split; congruence.
Qed.

(** [tomlkit] has no way to write [None]: serialising settings without an
    API key raises. *)
Lemma to_str_None (b : string) :
  to_str toml_basic_string (mkSettings b None)
  = Raise (ValueError "Invalid type <class 'NoneType'>").
Proof. reflexivity. Qed.

Lemma to_str_Some (b k : string) :
  to_str toml_basic_string (mkSettings b (Some k))
  = Return ("BASE_URL = " ++ toml_basic_string b ++ String PyStr.LF
              ("API_KEY = " ++ toml_basic_string k ++ String PyStr.LF "")).
Proof. reflexivity. Qed.

(** The fallback of [load], whatever the settings are: the branch is the
    one of the missing or unreadable file. *)
Lemma load_fallback (filepath : option string) (fs : filesystem) :
  missing_or_unreadable fs (default default_path filepath) ->
  do_load filepath fs
  = match do_save (new_settings env_vars) None fs with
    | (Raise e, fs') => (Raise e, fs')
    | (Return _, fs') => (Return (new_settings env_vars), fs')
    end.
Proof.
  intros [H | H]; unfold load; rewrite H; reflexivity.
Qed.

(** Without an API key in the environment the fallback fails: [save] has
    opened (and so created or emptied) the default file when [to_str]
    raises. *)
Lemma load_fallback_raises (filepath : option string) (fs fs_open : filesystem) :
  missing_or_unreadable fs (default default_path filepath) ->
  env_vars !! "api_key" = None ->
  makedirs_parent fs default_path = Return tt ->
  open_w fs default_path = Return fs_open ->
  do_load filepath fs
  = (Raise (ValueError "Invalid type <class 'NoneType'>"), fs_open).
Proof.
  intros Hmiss Hkey Hdir Hopen. rewrite (load_fallback _ _ Hmiss).
  unfold save. cbn [default]. rewrite Hdir, Hopen.
  unfold new_settings. rewrite Hkey, to_str_None. reflexivity.
Qed.

(** With an API key in the environment the fallback writes the settings to
    the default file and returns them. *)
Lemma load_fallback_persists (filepath : option string) (fs fs_open : filesystem)
    (k : string) :
  missing_or_unreadable fs (default default_path filepath) ->
  env_vars !! "api_key" = Some k ->
  makedirs_parent fs default_path = Return tt ->
  open_w fs default_path = Return fs_open ->
  exists text,
    to_str toml_basic_string (new_settings env_vars) = Return text
    /\ do_load filepath fs
       = (Return (new_settings env_vars), write fs_open default_path text).
Proof.
  intros Hmiss Hkey Hdir Hopen. rewrite (load_fallback _ _ Hmiss).
  unfold save. cbn [default]. rewrite Hdir, Hopen.
  unfold new_settings. rewrite Hkey, to_str_Some.
  eexists. split; reflexivity.
Qed.

(** With an API key in the environment and a [tomlkit] that reads back what
    it has written, a first [load] without a settings file, where nothing
    stands in the way of one, creates the file, and the next [load]
    returns the same settings from it. *)
Lemma load_twice_same_settings (fs : filesystem) (k text : string) :
  fs !! default_path = None ->
  no_file_there fs default_path = None ->
  makedirs_parent fs default_path = Return tt ->
  env_vars !! "api_key" = Some k ->
  to_str toml_basic_string (new_settings env_vars) = Return text ->
  tomlkit_parse text
  = Return (<["BASE_URL" := TString (BASE_URL (new_settings env_vars))]>
              (<["API_KEY" := TString k]> ∅)) ->
  let fs' := <[default_path := mkFile true true text]> fs in
  do_load None fs = (Return (new_settings env_vars), fs')
  /\ do_load None fs' = (Return (new_settings env_vars), fs').
Proof.
  intros Hnone Hfree Hdir Hkey Htext Hparse fs'.
  assert (Hopen : open_w fs default_path
                  = Return (<[default_path := mkFile true true ""]> fs)).
  { unfold open_w. now rewrite Hnone, Hfree. }
  destruct (load_fallback_persists None fs
              (<[default_path := mkFile true true ""]> fs) k)
    as (text' & Htext' & Hload);
    [left; unfold open_r; cbn [default]; now rewrite Hnone, Hfree
    | exact Hkey | exact Hdir | exact Hopen |].
  rewrite Htext in Htext'. injection Htext' as <-.
  split.
  - rewrite Hload. f_equal. unfold write.
    rewrite lookup_insert_eq. cbn [readable writable].
    apply insert_insert_eq.
  - unfold load, open_r. cbn [default]. subst fs'.
    rewrite lookup_insert_eq. cbn [readable content mbind result_bind].
    rewrite Hparse. cbn [mbind result_bind].
    unfold parse_obj, init_settings.
    rewrite bool_decide_eq_true_2
      by (rewrite !dom_insert_L, dom_empty_L; set_solver).
    rewrite lookup_insert_eq. cbn [str_validator mbind result_bind].
    rewrite lookup_insert_ne by discriminate. rewrite lookup_insert_eq.
    cbn [str_validator fmap result_fmap mbind result_bind].
    unfold new_settings. rewrite Hkey. reflexivity.
Qed.

Lemma open_w_frame (fs fs_open : filesystem) (path q : string) :
  open_w fs path = Return fs_open -> q <> path -> fs_open !! q = fs !! q.
Proof.
  unfold open_w. intros H Hq.
  destruct (fs !! path) as [f|];
    [destruct (writable f); [|discriminate]
    |destruct (no_file_there fs path); [discriminate|]];
    injection H as <-; now rewrite lookup_insert_ne.
Qed.

(** In the empty file system nothing stands in the way of a new file. *)
Lemma no_file_there_empty (path : string) : no_file_there ∅ path = None.
Proof.
  unfold no_file_there, blocked, is_dir. now rewrite map_to_list_empty.
Qed.

Lemma open_r_empty (path : string) : open_r ∅ path = Raise FileNotFoundError.
Proof.
  unfold open_r. now rewrite lookup_empty, no_file_there_empty.
Qed.

Lemma open_w_empty (path : string) :
  open_w ∅ path = Return {[ path := mkFile true true "" ]}.
Proof.
  unfold open_w. now rewrite lookup_empty, no_file_there_empty.
Qed.

Lemma makedirs_parent_empty (path : string) : makedirs_parent ∅ path = Return tt.
Proof.
  unfold makedirs_parent, is_dir, blocked.
  now rewrite !lookup_empty, map_to_list_empty.
Qed.

(** The directory of a file that is there needs no making. *)
Lemma makedirs_parent_file (fs : filesystem) (path : string) (f : file) :
  fs !! path = Some f -> makedirs_parent fs path = Return tt.
Proof.
  intros H. unfold makedirs_parent. now rewrite H.
Qed.

Lemma write_frame (fs : filesystem) (path q text : string) :
  q <> path -> write fs path text !! q = fs !! q.
Proof.
  unfold write. intros Hq.
  destruct (fs !! path); [now rewrite lookup_insert_ne|reflexivity].
Qed.

(** The fallback of [load] writes no regular file but the one at the
    default path: at a file path given to [load] that is another path
    there is the regular file that was there, or none as before. *)
Lemma load_fallback_frame (filepath : option string) (fs : filesystem) (q : string) :
  missing_or_unreadable fs (default default_path filepath) ->
  q <> default_path ->
  snd (do_load filepath fs) !! q = fs !! q.
Proof.
  intros Hmiss Hq. rewrite (load_fallback _ _ Hmiss).
  unfold save. cbn [default].
  destruct (makedirs_parent fs default_path); [|reflexivity].
  destruct (open_w fs default_path) as [fs_open|] eqn:Hopen; [|reflexivity].
  destruct (to_str _ _); cbn [snd].
  - rewrite write_frame by exact Hq. eapply open_w_frame; eassumption.
  - eapply open_w_frame; eassumption.
Qed.

(** C4 (the case that fails). [to_str] of settings without an API key, as
    the default settings are, returns no text to parse: it raises. *)
Theorem to_str_raises_without_api_key :
  forall base_url : string,
    to_str toml_basic_string (mkSettings base_url None)
    = Raise (ValueError "Invalid type <class 'NoneType'>")
    /\ to_str toml_basic_string (mkSettings default_BASE_URL None)
       = Raise (ValueError "Invalid type <class 'NoneType'>").
Proof. intros; split; apply to_str_None. Qed.

End SettingsProperties.

(** C3 (the case that fails). With no settings file and no API key in the
    environment, [load] does not return the default settings: it raises,
    and leaves an empty file at the default path. *)
Theorem load_without_file_raises :
  forall (user_config_dir : string) (toml_basic_string : string -> string)
         (tomlkit_parse : string -> result (gmap string config.toml_value)),
    config.load user_config_dir ∅ toml_basic_string tomlkit_parse None ∅
    = (Raise (ValueError "Invalid type <class 'NoneType'>"),
       {[ config._get_appdirs_path user_config_dir := config.mkFile true true "" ]}).
Proof.
  intros. apply load_fallback_raises.
  - left. apply open_r_empty.
  - apply lookup_empty.
  - apply makedirs_parent_empty.
  - apply open_w_empty.
Qed.

(** What the file left behind does to the next [load], when [tomlkit]
    reads an empty text as an empty document: the default settings are
    returned, and the file stays empty. *)
Lemma load_after_failed_fallback (user_config_dir : string)
    (toml_basic_string : string -> string)
    (tomlkit_parse : string -> result (gmap string config.toml_value)) :
  tomlkit_parse "" = Return ∅ ->
  let left_behind : config.filesystem :=
    {[ config._get_appdirs_path user_config_dir := config.mkFile true true "" ]} in
  config.load user_config_dir ∅ toml_basic_string tomlkit_parse None left_behind
  = (Return (config.mkSettings config.default_BASE_URL None), left_behind).
Proof.
  intros Hparse left_behind. unfold config.load, config.open_r. cbn [default].
  subst left_behind. rewrite lookup_singleton_eq.
  cbn [config.readable config.content mbind result_bind].
  rewrite Hparse. reflexivity.
Qed.

(** C10 (the case that fails). [load] of a file path with no file there, no
    settings file at the default path either and no API key in the
    environment: nothing is created at the given path, and at the default
    path there is an empty file and not the default settings, because
    [load] has raised. *)
Theorem load_explicit_path_raises :
  forall (toml_basic_string : string -> string)
         (tomlkit_parse : string -> result (gmap string config.toml_value)),
    let given := "/tmp/verthandi.toml" in
    let r := config.load sample.user_config_dir ∅ toml_basic_string
               tomlkit_parse (Some given) ∅ in
    fst r = Raise (ValueError "Invalid type <class 'NoneType'>")
    /\ snd r !! given = None
    /\ snd r !! config._get_appdirs_path sample.user_config_dir
       = Some (config.mkFile true true "").
Proof.
  intros tbs parse given r.
  assert (Hr : r = (Raise (ValueError "Invalid type <class 'NoneType'>"),
                    {[ config._get_appdirs_path sample.user_config_dir
                       := config.mkFile true true "" ]})).
  { apply load_fallback_raises.
    - left. apply open_r_empty.
    - apply lookup_empty.
    - apply makedirs_parent_empty.
    - apply open_w_empty. }
  rewrite Hr. cbn [fst snd]. split; [reflexivity|]. split.
  - apply lookup_singleton_ne. discriminate.
  - apply lookup_singleton_eq.
Qed.

(** C5 as it is stated does not hold for a file without [API_KEY] when
    the environment sets one: the settings that [load] returns hold the key
    of the environment, not the null of the file. *)
Lemma load_as_stated_counterexample :
  config.matches_schema sample.document_without_key
  /\ sample.tomlkit_parse_files sample.text_without_key
     = Return sample.document_without_key
  /\ as_stated.stored_api_key sample.document_without_key = None
  /\ exists st : config.VerthandiSettings,
       config.load sample.user_config_dir sample.environment_with_key
         sample.toml_basic_string sample.tomlkit_parse_files None
         sample.a_filesystem_without_key
       = (Return st, sample.a_filesystem_without_key)
       /\ config.API_KEY st = Some "key-of-the-environment"
       /\ config.API_KEY st <> as_stated.stored_api_key sample.document_without_key.
Proof.
  split; [|split; [reflexivity|split; [reflexivity|]]].
  - split; [|split].
    + unfold sample.document_without_key. rewrite dom_singleton_L. set_solver.
    + eexists. reflexivity.
    + left. reflexivity.
  - exists (config.mkSettings "https://api.example.com/v1"
                              (Some "key-of-the-environment")).
    split; [vm_compute; reflexivity|]. split; [reflexivity|discriminate].
Qed.

Lemma load_returns_file_values_witness :
  config.load sample.user_config_dir ∅ sample.toml_basic_string
    sample.tomlkit_parse None sample.a_filesystem
  = (Return (config.mkSettings "https://api.example.com/v1" (Some "secret")),
     sample.a_filesystem).
Proof.
  destruct (load_returns_file_values sample.user_config_dir ∅
              sample.toml_basic_string sample.tomlkit_parse None
              sample.a_filesystem
              (config.mkFile true true sample.settings_text)
              (<["BASE_URL" := config.TString "https://api.example.com/v1"]>
                 (<["API_KEY" := config.TString "secret"]> ∅)))
    as (st & Hload & Hb & Hk & _).
  - reflexivity.
  - reflexivity.
  - reflexivity.
  - split; [|split].
    + rewrite !dom_insert_L, dom_empty_L. set_solver.
    + eexists. reflexivity.
    + right. eexists. reflexivity.
  - rewrite Hload. destruct st as [b k].
    cbn [config.BASE_URL config.API_KEY] in Hb, Hk.
    rewrite lookup_insert_eq in Hb. injection Hb as <-.
    rewrite (Hk "secret" eq_refl). reflexivity.
Defined.

(** * Further properties of the code *)

(** ** The client: construction that fails, and what operations send *)

Section ClientBehaviour.

Import client.

Variable settings : config.VerthandiSettings.
Variable _check_bracketed_netloc : string -> bool.
Variable nfkc_netloc_ok : string -> bool.
Variable Params : Type.
Variable Body : Type.
Variable default_headers : gmap string string.
Variable remote : list (request Params) -> request Params -> result response.
Variable json_loads : string -> result json.
Variable json_dumps : option Body -> result string.
Variable str_of_container : json -> string.

Abbreviation world := (client.world Params).
Abbreviation init_headers := (client.init_headers default_headers).
Abbreviation init :=
  (__init__ settings _check_bracketed_netloc nfkc_netloc_ok Params
            default_headers remote json_loads str_of_container).
Abbreviation run :=
  (perform_all _check_bracketed_netloc nfkc_netloc_ok Params Body remote
               json_loads json_dumps str_of_container).
Abbreviation step :=
  (perform _check_bracketed_netloc nfkc_netloc_ok Params Body remote
           json_loads json_dumps str_of_container).

(** X1. When the answer to the user request is a JSON object without
    [defaultWorkspace] (an error document, say), [__init__] raises the
    [KeyError] of that key; with [defaultWorkspace] but without [id] it
    raises the [KeyError] of [id]. Either way the one request has gone out
    and [_defaults] has not been assigned. *)
Theorem init_missing_key_raises :
  forall (api_key base_url : option string) (sent0 : list (request Params))
         (resp : response) (entries : list (string * json)),
    let base := default (config.BASE_URL settings) base_url in
    let rq := mkRequest GET (base ++ "/user") (init_headers api_key) None None in
    let left :=
      mkWorld (mkClient (mkSession (init_headers api_key)) base None)
              (sent0 ++ [rq]) in
    remote sent0 rq = Return resp ->
    json_loads (text resp) = Return (JDict entries) ->
    (assoc "defaultWorkspace" entries = None ->
     init api_key base_url sent0 = (Raise (KeyError "defaultWorkspace"), left))
    /\ (assoc "defaultWorkspace" entries <> None ->
        assoc "id" entries = None ->
        init api_key base_url sent0 = (Raise (KeyError "id"), left)).
Proof.
  intros api_key base_url sent0 resp entries base rq left Hresp Hjson.
  unfold __init__. rewrite get_user_one_call. unfold client.one_call.
  cbn [self sent _base_url _session headers].
  fold base. fold (init_headers api_key). fold rq.
  rewrite Hresp. cbn [mbind result_bind]. rewrite Hjson.
  cbn [subscript]. split.
  - intros ->. reflexivity.
  - intros Hws Hid. destruct (assoc "defaultWorkspace" entries); [|congruence].
    rewrite Hid. reflexivity.
Qed.

Lemma perform_sent (op : operation Params Body) (w : world) :
  exists new : list (request Params),
    sent (snd (step op w)) = (sent w ++ new)%list
    /\ length new <= 1
    /\ Forall (fun rq => req_headers rq = headers (_session (self w))) new.
Proof.
  assert (Hnone : exists new : list (request Params),
             sent w = (sent w ++ new)%list /\ length new <= 1
             /\ Forall (fun rq => req_headers rq = headers (_session (self w))) new).
  { exists []. rewrite app_nil_r. repeat split; [cbn; lia | constructor]. }
  assert (Hone : forall m u ps b,
             exists new : list (request Params),
               sent (snd (decode Params json_loads
                            (session_request Params remote m u ps b w)))
               = (sent w ++ new)%list /\ length new <= 1
               /\ Forall (fun rq => req_headers rq = headers (_session (self w))) new).
  { intros m u ps b. rewrite decode_session_request. eexists.
    split; [reflexivity|]. split; [cbn; lia|].
    constructor; [reflexivity | constructor]. }
  destruct op; cbn [perform];
    unfold get_user, list_timeentry, start_timeentry, stop_timeentry;
    destruct (_get_url _ _ _ _ _ _ _ _); cbn [snd]; try exact Hnone;
    try destruct (json_dumps _); cbn [snd]; try exact Hnone; apply Hone.
Qed.

(** X2. Whatever operations are performed, in whatever order and whether
    they return or raise, each one sends at most one request, nothing that
    was sent is forgotten, and every request carries the headers of the
    session: there is no retry, and no operation sends other headers. *)
Theorem operations_send_session_requests :
  forall (ops : list (operation Params Body)) (w : world),
    exists new : list (request Params),
      sent (run ops w) = (sent w ++ new)%list
      /\ length new <= length ops
      /\ Forall (fun rq => req_headers rq = headers (_session (self w))) new.
Proof.
  induction ops as [|op ops IH]; intros w; cbn [perform_all].
  - exists []. rewrite app_nil_r. repeat split; [cbn; lia | constructor].
  - destruct (perform_sent op w) as (new1 & Hs1 & Hl1 & Hh1).
    destruct (IH (snd (step op w))) as (new2 & Hs2 & Hl2 & Hh2).
    exists (new1 ++ new2)%list. split; [|split].
    + rewrite Hs2, Hs1. symmetry. apply app_assoc.
    + rewrite length_app. cbn [length]. lia.
    + apply Forall_app. split; [exact Hh1|].
      rewrite perform_self in Hh2. exact Hh2.
Qed.

End ClientBehaviour.

Lemma init_missing_key_raises_witness :
  fst (client.__init__ sample.settings sample.check_ok sample.check_ok string ∅
         sample.remote_refusing sample.json_loads_error sample.str_of_container
         None None [])
  = Raise (KeyError "defaultWorkspace").
Proof.
  rewrite (proj1 (init_missing_key_raises
             sample.settings sample.check_ok sample.check_ok string ∅
             sample.remote_refusing sample.json_loads_error
             sample.str_of_container None None []
             (client.mkResponse 401 "{error}")
             [("message", client.JStr "Api key does not exist");
              ("code", client.JInt 1000)]
             eq_refl eq_refl) eq_refl).
  reflexivity.
Defined.

(** ** The reports URL on other base URLs *)

Section ReportsUrlShapes.

Import PyStr urllib client base_urls.
#[local] Arguments String.append !s1 s2 : simpl nomatch.

Variable _check_bracketed_netloc : string -> bool.
Variable nfkc_netloc_ok : string -> bool.
Variable str_of_container : json -> string.

Abbreviation get_url :=
  (_get_url _check_bracketed_netloc nfkc_netloc_ok str_of_container).

Lemma replace_first_absent (old new s : string) :
  occurs old s = false -> replace_first old new s = s.
Proof.
  induction s as [|x s IH]; cbn [occurs replace_first];
    intros [Hstart Hrest]%orb_false_iff; rewrite Hstart; [reflexivity|].
  now rewrite (IH Hrest).
Qed.

Lemma startswith_api_inside (x : ascii) (a b : string) :
  startswith "api" (String x (a ++ "api" ++ b))
  = startswith "api" (String x (a ++ "ap")).
Proof.
  destruct a as [|y [|z a]]; cbn [String.append startswith];
    repeat match goal with
           | |- context [Ascii.eqb ?u ?v] => is_var v; destruct (Ascii.eqb u v)
           end;
    reflexivity.
Qed.

Lemma replace_first_api_at (a b : string) :
  occurs "api" (a ++ "ap") = false ->
  replace_first "api" "reports" (a ++ "api" ++ b) = a ++ "reports" ++ b.
Proof.
  induction a as [|x a IH]; [reflexivity|].
  intros H.
  change (String x a ++ "ap") with (String x (a ++ "ap")) in H.
  change (String x a ++ "api" ++ b) with (String x (a ++ "api" ++ b)).
  change (String x a ++ "reports" ++ b) with (String x (a ++ "reports" ++ b)).
  change (occurs "api" (String x (a ++ "ap")))
    with (startswith "api" (String x (a ++ "ap")) || occurs "api" (a ++ "ap")) in H.
  apply orb_false_iff in H as [Hstart Hrest].
  change (replace_first "api" "reports" (String x (a ++ "api" ++ b)))
    with (if startswith "api" (String x (a ++ "api" ++ b))
          then "reports" ++ drop 3 (String x (a ++ "api" ++ b))
          else String x (replace_first "api" "reports" (a ++ "api" ++ b))).
  rewrite startswith_api_inside, Hstart, (IH Hrest). reflexivity.
Qed.

Lemma urlunparse_base (s n p : string) :
  scheme_ok s = true -> truthy n = true -> path_ok p = true ->
  urlunparse (mkParseResult (lower s) n p "" "" "") = lower s ++ "://" ++ n ++ p.
Proof.
  intros Hs Hn Hp. unfold urlunparse, urlunsplit.
  cbn [scheme netloc path params query fragment truthy].
  rewrite Hn. cbn [orb].
  assert (Hp' : truthy p && negb (String.eqb (take 1 p) "/") = false).
  { unfold path_ok in Hp. apply andb_true_iff in Hp as [Hstart _].
    destruct p as [|x p']; [reflexivity|].
    cbn [truthy negb orb startswith] in Hstart.
    apply andb_true_iff in Hstart as [Hx _].
    apply Ascii.eqb_eq in Hx. subst x. reflexivity. }
  rewrite Hp', lower_truthy.
  unfold scheme_ok in Hs. destruct s as [|c0 s']; [discriminate|].
  cbn [truthy]. rewrite ?app_assoc_str. reflexivity.
Qed.

(** X3. When [api] does not occur in the network location of the base URL,
    nothing is replaced: the report URL is the base URL (its scheme in
    lower case) followed by [/] and the endpoint, so a report request goes
    to the host of the API. *)
Theorem reports_url_without_api_in_netloc :
  forall (session : Session) (od : option Defaults)
         (s n p e : string) (ow ou : option string),
    scheme_ok s = true ->
    netloc_ok n = true ->
    path_ok p = true ->
    occurs "api" n = false ->
    get_url (mkClient session (s ++ "://" ++ n ++ p) od) e (Some report) ow ou
    = Return (lower s ++ "://" ++ n ++ p ++ "/" ++ e).
Proof.
  intros session od s n p e ow ou Hs Hn Hp Hocc.
  rewrite (reports_url_components _ _ _ _ _ _ _ (mkParseResult (lower s) n p "" "" ""))
    by (apply urlparse_base; assumption).
  cbn [scheme netloc path params query fragment].
  rewrite (replace_first_absent _ _ _ Hocc).
  rewrite urlunparse_base; [|assumption| |assumption].
  - now rewrite !app_assoc_str.
  - unfold netloc_ok in Hn. now apply andb_true_iff in Hn as [? _].
Qed.

(** X4. When the network location of the base URL is [a], [api], [b] and
    this is the first [api] in it, the network location of the report URL
    is [a], [reports], [b]: a later [api] in [b], like the one of the path,
    stays. *)
Theorem reports_url_first_api_only :
  forall (session : Session) (od : option Defaults)
         (s a b p e : string) (ow ou : option string),
    scheme_ok s = true ->
    netloc_ok (a ++ "api" ++ b) = true ->
    path_ok p = true ->
    occurs "api" (a ++ "ap") = false ->
    get_url (mkClient session (s ++ "://" ++ (a ++ "api" ++ b) ++ p) od)
            e (Some report) ow ou
    = Return (lower s ++ "://" ++ (a ++ "reports" ++ b) ++ p ++ "/" ++ e).
Proof.
  intros session od s a b p e ow ou Hs Hn Hp Hocc.
  rewrite (reports_url_components _ _ _ _ _ _ _
             (mkParseResult (lower s) (a ++ "api" ++ b) p "" "" ""))
    by (apply urlparse_base; assumption).
  cbn [scheme netloc path params query fragment].
  rewrite (replace_first_api_at _ _ Hocc).
  rewrite urlunparse_base; [|assumption| |assumption].
  - now rewrite !app_assoc_str.
  - destruct a; reflexivity.
Qed.




End ReportsUrlShapes.

Lemma reports_url_without_api_in_netloc_witness :
  client._get_url sample.check_ok sample.check_ok sample.str_of_container
    (client.mkClient (client.mkSession ∅) "https://clockify.example.org/api/v1" None)
    "summary" (Some client.report) None None
  = Return "https://clockify.example.org/api/v1/summary".
Proof.
  exact (reports_url_without_api_in_netloc
           sample.check_ok sample.check_ok sample.str_of_container
           (client.mkSession ∅) None "https" "clockify.example.org" "/api/v1"
           "summary" None None eq_refl eq_refl eq_refl eq_refl).
Defined.

Lemma reports_url_first_api_only_witness :
  client._get_url sample.check_ok sample.check_ok sample.str_of_container
    (client.mkClient (client.mkSession ∅) "https://eu.api.rapidapi.com/api/v1" None)
    "summary" (Some client.report) None None
  = Return "https://eu.reports.rapidapi.com/api/v1/summary".
Proof.
  exact (reports_url_first_api_only
           sample.check_ok sample.check_ok sample.str_of_container
           (client.mkSession ∅) None "https" "eu." ".rapidapi.com" "/api/v1"
           "summary" None None eq_refl eq_refl eq_refl eq_refl).
Defined.


(** ** The settings file: what [save] and [load] write, and when *)

Section SettingsBehaviour.

Import config.

Variable user_config_dir : string.
Variable env_vars : gmap string string.
Variable toml_basic_string : string -> string.
Variable tomlkit_parse : string -> result (gmap string toml_value).

Abbreviation default_path := (_get_appdirs_path user_config_dir).
Abbreviation do_load :=
  (load user_config_dir env_vars toml_basic_string tomlkit_parse).
Abbreviation do_save := (save user_config_dir toml_basic_string).


(** X7. [save] of settings without an API key on a file that is there and
    may be written: the file has been opened, and so emptied, when
    [to_str] raises. What the file held is lost. *)
Theorem save_without_api_key_empties_file :
  forall (base_url : string) (filepath : option string)
         (fs : filesystem) (f : file),
    let target := default default_path filepath in
    fs !! target = Some f ->
    writable f = true ->
    do_save (mkSettings base_url None) filepath fs
    = (Raise (ValueError "Invalid type <class 'NoneType'>"),
       <[target := mkFile (readable f) true ""]> fs).
Proof.
  intros base_url filepath fs f target Hf Hw.
  unfold save, makedirs_parent, open_w. fold target.
  rewrite Hf, Hw, to_str_None. reflexivity.
Qed.

(** X8. A settings file written by [save] is read back by [load]: for
    settings with an API key, a target file that is there and may be read
    and written, and a [tomlkit] that reads back the text it wrote, [save]
    returns, the file holds the text of [to_str] in place of what it held,
    and [load] of the same path returns the settings saved. *)
Theorem save_then_load :
  forall (self : VerthandiSettings) (path key text : string) (fs : filesystem)
         (f : file),
    API_KEY self = Some key ->
    fs !! path = Some f ->
    readable f = true ->
    writable f = true ->
    to_str toml_basic_string self = Return text ->
    tomlkit_parse text
    = Return (<["BASE_URL" := TString (BASE_URL self)]>
                (<["API_KEY" := TString key]> ∅)) ->
    let fs' := <[path := mkFile true true text]> fs in
    do_save self (Some path) fs = (Return tt, fs')
    /\ do_load (Some path) fs' = (Return self, fs').
Proof.
  intros self path key text fs f Hkey Hf Hr Hw Htext Hparse fs'. split.
  - unfold save, makedirs_parent, open_w.
    change (default default_path (Some path)) with path.
    rewrite Hf, Hw, Htext. unfold write. rewrite lookup_insert_eq.
    cbn [readable writable]. now rewrite insert_insert_eq, Hr.
  - unfold load, open_r.
    change (default default_path (Some path)) with path. subst fs'.
    rewrite lookup_insert_eq. cbn [readable content mbind result_bind].
    rewrite Hparse. cbn [mbind result_bind].
    unfold parse_obj, init_settings.
    rewrite bool_decide_eq_true_2
      by (rewrite !dom_insert_L, dom_empty_L; set_solver).
    rewrite lookup_insert_eq. cbn [str_validator mbind result_bind].
    rewrite lookup_insert_ne by discriminate. rewrite lookup_insert_eq.
    cbn [str_validator fmap result_fmap mbind result_bind].
    destruct self as [b k]. cbn [BASE_URL API_KEY] in *. now subst k.
Qed.

Lemma parse_obj_not_caught (data : gmap string toml_value) :
  parse_obj env_vars data <> Raise PermissionError
  /\ parse_obj env_vars data <> Raise FileNotFoundError.
Proof.
  unfold parse_obj, init_settings.
  destruct (bool_decide _); [|split; discriminate].
  destruct (data !! "BASE_URL") as [[]|]; cbn; try (split; discriminate);
    destruct (data !! "API_KEY") as [[]|]; cbn; split; discriminate.
Qed.

(** X9. [load] writes nothing when the file can be read: with a parser that
    raises neither of the two exceptions of the [except] clause, the file
    system is left as it is and the outcome is the one of parsing and
    validating the text, so a file that does not parse or does not match
    the schema is reported and not replaced by the defaults. *)
Theorem load_keeps_a_readable_file :
  forall (filepath : option string) (fs : filesystem) (f : file),
    (forall text, tomlkit_parse text <> Raise PermissionError
                  /\ tomlkit_parse text <> Raise FileNotFoundError) ->
    fs !! default default_path filepath = Some f ->
    readable f = true ->
    do_load filepath fs
    = (data ← tomlkit_parse (content f); parse_obj env_vars data, fs).
Proof.
  intros filepath fs f Hparser Hf Hr.
  unfold load, open_r. rewrite Hf, Hr. cbn [mbind result_bind].
  destruct (Hparser (content f)) as [Hp1 Hp2].
  destruct (tomlkit_parse (content f)) as [data|e] eqn:Hdata; cbn [mbind result_bind].
  - destruct (parse_obj_not_caught data) as [Hv1 Hv2].
    destruct (parse_obj env_vars data) as [st|e]; [reflexivity|].
    destruct e; try reflexivity; congruence.
  - destruct e; try reflexivity; congruence.
Qed.

(** X10. When the settings file is missing or may not be read, and the file
    at the default path is there but may not be written, the fallback
    fails: [load] raises the [PermissionError] of [save] and changes
    nothing. *)
Theorem load_fallback_on_locked_file :
  forall (filepath : option string) (fs : filesystem) (f : file),
    missing_or_unreadable fs (default default_path filepath) ->
    fs !! default_path = Some f ->
    writable f = false ->
    do_load filepath fs = (Raise PermissionError, fs).
Proof.
  intros filepath fs f Hmiss Hf Hw.
  rewrite (load_fallback _ _ _ _ _ _ Hmiss).
  unfold save, makedirs_parent, open_w. cbn [default]. rewrite Hf, Hw. reflexivity.
Qed.

End SettingsBehaviour.


Lemma save_without_api_key_empties_file_witness :
  config.save sample.user_config_dir sample.toml_basic_string
    sample.settings None sample.a_filesystem
  = (Raise (ValueError "Invalid type <class 'NoneType'>"),
     <[config._get_appdirs_path sample.user_config_dir
       := config.mkFile true true ""]> sample.a_filesystem).
Proof.
  exact (save_without_api_key_empties_file
           sample.user_config_dir sample.toml_basic_string
           config.default_BASE_URL None sample.a_filesystem
           (config.mkFile true true sample.settings_text) eq_refl eq_refl).
Defined.

Lemma save_then_load_witness :
  let fs : config.filesystem :=
    {[ "/tmp/verthandi.toml" := config.mkFile true true "BASE_URL = 1" ]} in
  let fs' : config.filesystem :=
    <["/tmp/verthandi.toml" := config.mkFile true true sample.settings_text]> fs in
  config.save sample.user_config_dir sample.toml_basic_string
    sample.some_settings (Some "/tmp/verthandi.toml") fs
  = (Return tt, fs')
  /\ config.load sample.user_config_dir ∅ sample.toml_basic_string
       sample.tomlkit_parse (Some "/tmp/verthandi.toml") fs'
     = (Return sample.some_settings, fs').
Proof.
  exact (save_then_load
           sample.user_config_dir ∅ sample.toml_basic_string
           sample.tomlkit_parse sample.some_settings "/tmp/verthandi.toml"
           "secret" sample.settings_text
           {[ "/tmp/verthandi.toml" := config.mkFile true true "BASE_URL = 1" ]}
           (config.mkFile true true "BASE_URL = 1")
           eq_refl (lookup_singleton_eq _ _) eq_refl eq_refl eq_refl eq_refl).
Defined.

Lemma load_keeps_a_readable_file_witness :
  config.load sample.user_config_dir ∅ sample.toml_basic_string
    sample.tomlkit_parse None sample.a_filesystem
  = (Return sample.some_settings, sample.a_filesystem).
Proof.
  rewrite (load_keeps_a_readable_file
             sample.user_config_dir ∅ sample.toml_basic_string
             sample.tomlkit_parse None sample.a_filesystem
             (config.mkFile true true sample.settings_text)).
  - reflexivity.
  - intros text. unfold sample.tomlkit_parse.
    destruct (String.eqb text sample.settings_text); [split; discriminate|].
    destruct (String.eqb text ""); split; discriminate.
  - reflexivity.
  - reflexivity.
Defined.

Lemma load_fallback_on_locked_file_witness :
  config.load sample.user_config_dir ∅ sample.toml_basic_string
    sample.tomlkit_parse None sample.a_locked_filesystem
  = (Raise PermissionError, sample.a_locked_filesystem).
Proof.
  exact (load_fallback_on_locked_file
           sample.user_config_dir ∅ sample.toml_basic_string
           sample.tomlkit_parse None sample.a_locked_filesystem
           (config.mkFile false false sample.settings_text)
           (or_intror eq_refl) eq_refl eq_refl).
Defined.

(** The directory of the settings file, as [pathlib] gives it. *)
Example parent_of_paths :
  config.parent (config._get_appdirs_path sample.user_config_dir)
  = sample.user_config_dir
  /\ config.parent "/tmp/verthandi.toml" = "/tmp"
  /\ config.parent "verthandi.toml" = "."
  /\ config.parent "/verthandi.toml" = "/"
  /\ config.parent "a//b/" = "a"
  /\ config.parent "//a/b" = "//a"
  /\ config.parent "///a/./b" = "/a".
Proof. repeat split; vm_compute; reflexivity. Qed.

(** A regular file where the directory of the settings should be: [open]
    finds no directory on the way to the settings file, which is not one
    of the two exceptions that [load] takes for a missing file, and
    [os.makedirs] finds a file where it should make the directory.
    Nothing is written. *)
Example load_with_a_file_in_the_way :
  let fs : config.filesystem :=
    {[ sample.user_config_dir := config.mkFile true true "" ]} in
  config.load sample.user_config_dir sample.environment
    sample.toml_basic_string sample.tomlkit_parse None fs
  = (Raise (OSError "NotADirectoryError"), fs)
  /\ config.save sample.user_config_dir sample.toml_basic_string
       sample.some_settings None fs
     = (Raise (OSError "FileExistsError"), fs).
Proof. split; vm_compute; reflexivity. Qed.

(** [open] on a directory, one with a file below it. *)
Example open_a_directory :
  config.open_r sample.a_filesystem sample.user_config_dir
  = Raise (OSError "IsADirectoryError")
  /\ config.open_w sample.a_filesystem sample.user_config_dir
     = Raise (OSError "IsADirectoryError").
Proof. split; vm_compute; reflexivity. Qed.

Lemma load_twice_same_settings_witness :
  let fs' : config.filesystem :=
    {[ config._get_appdirs_path sample.user_config_dir
       := config.mkFile true true sample.settings_text ]} in
  config.load sample.user_config_dir sample.environment
    sample.toml_basic_string sample.tomlkit_parse None ∅
  = (Return sample.some_settings, fs')
  /\ config.load sample.user_config_dir sample.environment
       sample.toml_basic_string sample.tomlkit_parse None fs'
     = (Return sample.some_settings, fs').
Proof.
  exact (load_twice_same_settings
           sample.user_config_dir sample.environment sample.toml_basic_string
           sample.tomlkit_parse ∅ "secret" sample.settings_text
           (lookup_empty _) (no_file_there_empty _) (makedirs_parent_empty _)
           eq_refl eq_refl eq_refl).
Defined.

(** ** The elapsed time beyond the hours of one day *)

Section ElapsedBehaviour.

Import cli.
Local Open Scope Z_scope.

Variable dt_parse : string -> result datetime.

Lemma timedelta_of_parts (D h m s f : Z) :
  0 <= h < 24 -> 0 <= m < 60 -> 0 <= s < 60 -> 0 <= f < us_per_second ->
  timedelta_of_us ((((D * 24 + h) * 60 + m) * 60 + s) * us_per_second + f)
  = mkTimedelta D ((h * 60 + m) * 60 + s) f.
Proof.
  intros Hh Hm Hs Hf. unfold timedelta_of_us, us_per_day, us_per_second in *.
  f_equal; Z.div_mod_to_equations; lia.
Qed.

(** X11. How any elapsed time prints. Written as [D] days, [h] hours, [m]
    minutes, [s] seconds and [f] microseconds, with [D] negative when the
    start is after [now] and the other parts counted upwards from there,
    the string is [h:mm:ss], with [D day, ] or [D days, ] in front when [D]
    is not zero and the six digits of [f] behind a point when [f] is not
    zero: a start one second after [now] reads [-1 day, 23:59:59]. *)
Theorem get_timedelta_days_and_fraction :
  forall (clock : Z) (dts_1 : string) (start offset D h m s f : Z),
    dt_parse dts_1 = Return (mkDatetime start (Some offset)) ->
    0 <= h < 24 -> 0 <= m < 60 -> 0 <= s < 60 -> 0 <= f < us_per_second ->
    (clock - clock mod us_per_second) - (start - offset)
    = (((D * 24 + h) * 60 + m) * 60 + s) * us_per_second + f ->
    let hms := (str_of_Z h ++ ":" ++ zero_pad 2 m ++ ":" ++ zero_pad 2 s)%string in
    let plural : string := if Z.abs D =? 1 then "" else "s" in
    let with_days :=
      if D =? 0 then hms
      else (str_of_Z D ++ " day" ++ plural ++ ", " ++ hms)%string in
    get_timedelta dt_parse clock dts_1
    = Return (if f =? 0 then with_days
              else (with_days ++ "." ++ zero_pad 6 f)%string).
Proof.
  intros clock dts_1 start offset D h m s f Hparse Hh Hm Hs Hf Hel.
  unfold get_timedelta. rewrite Hparse. cbn [mbind result_bind].
  unfold datetime_sub, replace_microsecond_0, now_utc.
  cbn [wall utcoffset mbind result_bind].
  replace (clock - clock mod us_per_second - 0 - (start - offset))
    with ((((D * 24 + h) * 60 + m) * 60 + s) * us_per_second + f) by lia.
  rewrite timedelta_of_parts by assumption.
  unfold str_timedelta. cbn [days seconds microseconds].
  destruct (divmod_60 (h * 60 + m) s Hs) as [-> ->].
  destruct (divmod_60 h m Hm) as [-> ->].
  reflexivity.
Qed.

(** X12. A start without time zone: [dateutil] returns a naive [datetime],
    [now] is aware, and the subtraction raises [TypeError]. *)
Theorem get_timedelta_naive_start_raises :
  forall (clock : Z) (dts_1 : string) (start : Z),
    dt_parse dts_1 = Return (mkDatetime start None) ->
    get_timedelta dt_parse clock dts_1
    = Raise (TypeError "can't subtract offset-naive and offset-aware datetimes").
Proof.
  intros clock dts_1 start Hparse.
  unfold get_timedelta. rewrite Hparse. reflexivity.
Qed.

(** X13. The microseconds of the clock do not show: two readings of the
    clock within the same second give the same elapsed time, whatever the
    start is and whether or not it parses. *)
Theorem get_timedelta_ignores_clock_microseconds :
  forall (clock1 clock2 : Z) (dts_1 : string),
    clock1 / us_per_second = clock2 / us_per_second ->
    get_timedelta dt_parse clock1 dts_1 = get_timedelta dt_parse clock2 dts_1.
Proof.
  intros clock1 clock2 dts_1 Hsame. unfold get_timedelta.
  assert (Hnow : replace_microsecond_0 (now_utc clock1)
                 = replace_microsecond_0 (now_utc clock2)).
  { unfold replace_microsecond_0, now_utc. cbn [wall utcoffset]. f_equal.
    unfold us_per_second in *.
    pose proof (Z.div_mod clock1 1000000). pose proof (Z.div_mod clock2 1000000).
    lia. }
  rewrite Hnow. reflexivity.
Qed.

End ElapsedBehaviour.

Lemma get_timedelta_days_and_fraction_witness :
  cli.get_timedelta sample.dt_parse sample.clock "2021-03-04T13:02:04Z"
  = Return "-1 day, 23:59:59".
Proof.
  refine (get_timedelta_days_and_fraction sample.dt_parse sample.clock
            "2021-03-04T13:02:04Z" 1614862924000000 0 (-1) 23 59 59 0 _ _ _ _ _ _);
    vm_compute; try reflexivity; split; congruence.
Defined.

Lemma get_timedelta_naive_start_raises_witness :
  cli.get_timedelta sample.dt_parse_naive sample.clock "2021-03-04T12:00:00"
  = Raise (TypeError "can't subtract offset-naive and offset-aware datetimes").
Proof.
  exact (get_timedelta_naive_start_raises sample.dt_parse_naive sample.clock
           "2021-03-04T12:00:00" 1614859200000000 eq_refl).
Defined.

Lemma get_timedelta_ignores_clock_microseconds_witness :
  cli.get_timedelta sample.dt_parse (sample.clock + 700000) "2021-03-04T12:00:00Z"
  = Return "1:02:03".
Proof.
  rewrite (get_timedelta_ignores_clock_microseconds sample.dt_parse
             (sample.clock + 700000) sample.clock "2021-03-04T12:00:00Z"
             eq_refl).
  vm_compute. reflexivity.
Defined.

(** ** The commands and the program *)

Section CommandBehaviour.

Import client cli commands.

Variable user_config_dir : string.
Variable env_vars : gmap string string.
Variable toml_basic_string : string -> string.
Variable tomlkit_parse : string -> result (gmap string config.toml_value).
Variable _check_bracketed_netloc : string -> bool.
Variable nfkc_netloc_ok : string -> bool.
Variable default_headers : gmap string string.
Variable remote : list (request Params) -> request Params -> result response.
Variable json_loads : string -> result json.
Variable json_dumps : option Body -> result string.
Variable str_of_container : json -> string.
Variable dt_parse : string -> result datetime.
Variable clock : nat -> Z.
Variable console_print : list string -> list (list string) -> result unit.

Abbreviation fmt := (format_value str_of_container).
Abbreviation one_call := (client.one_call Params remote json_loads).
Abbreviation do_rows := (rows_of dt_parse clock).
Abbreviation do_list :=
  (list_ _check_bracketed_netloc nfkc_netloc_ok remote json_loads
         str_of_container dt_parse clock console_print).
Abbreviation do_start :=
  (start _check_bracketed_netloc nfkc_netloc_ok remote json_loads json_dumps
         str_of_container clock).
Abbreviation do_finish :=
  (finish _check_bracketed_netloc nfkc_netloc_ok remote json_loads json_dumps
          str_of_container clock).
Abbreviation do_main :=
  (main user_config_dir env_vars toml_basic_string tomlkit_parse
        _check_bracketed_netloc nfkc_netloc_ok default_headers remote
        json_loads json_dumps str_of_container dt_parse clock console_print).

Lemma get_timedelta_aware (reading : Z) (s : string) (wall offset : Z) :
  dt_parse s = Return (mkDatetime wall (Some offset)) ->
  exists delta, get_timedelta dt_parse reading s = Return delta.
Proof.
  intros H. unfold get_timedelta. rewrite H. eexists. reflexivity.
Qed.

Lemma row_of_ok (entry : json) (t : nat) :
  entry_ok dt_parse entry ->
  exists row, row_of dt_parse clock entry t = (Return row, S t)
              /\ shows dt_parse entry (clock t) row.
Proof.
  intros (description & interval & d & s & wall & offset
          & Hdesc & Hcell & Hint & Hstart & Hparse).
  destruct (get_timedelta_aware (clock t) s wall offset Hparse) as [delta Hdelta].
  exists [d; s; delta]. split.
  - unfold row_of. rewrite Hdesc, Hint. cbn [mbind result_bind].
    rewrite Hstart. cbn [get_timedelta_of]. rewrite Hdelta, Hcell. reflexivity.
  - exists description, interval, d, s, delta. repeat split; assumption.
Qed.

Lemma rows_of_ok (entries : list json) (t : nat) :
  Forall (entry_ok dt_parse) entries ->
  exists rows,
    do_rows entries t = (Return rows, t + length entries)
    /\ length rows = length entries
    /\ forall (i : nat) (entry : json) (row : list string),
         entries !! i = Some entry -> rows !! i = Some row ->
         shows dt_parse entry (clock (t + i)) row.
Proof.
  intros Hok. revert t.
  induction Hok as [|entry rest Hentry _ IH]; intros t.
  - exists []. cbn [rows_of length]. rewrite Nat.add_0_r.
    split; [reflexivity|]. split; [reflexivity|]. intros i entry row H. discriminate.
  - destruct (row_of_ok entry t Hentry) as (row & Hrow & Hshows).
    destruct (IH (S t)) as (rows & Hrows & Hlen & Hall).
    exists (row :: rows). cbn [rows_of]. rewrite Hrow, Hrows.
    cbn [length]. rewrite Nat.add_succ_r. split; [reflexivity|].
    split; [now rewrite Hlen|].
    intros [|i] entry' row' He Hr; cbn in He, Hr.
    + injection He as <-. injection Hr as <-. now rewrite Nat.add_0_r.
    + rewrite Nat.add_succ_r. exact (Hall i entry' row' He Hr).
Qed.

Lemma list_timeentry_default (w : world Params) (d : Defaults)
    (params : option Params) :
  _defaults (self w) = Some d ->
  list_timeentry _check_bracketed_netloc nfkc_netloc_ok Params remote json_loads
    str_of_container None None params w
  = one_call w (mkRequest GET
                  (_base_url (self w) ++ "/workspaces/" ++ fmt (workspaceId d)
                   ++ "/user/" ++ fmt (userId d) ++ "/time-entries")
                  (headers (_session (self w))) params None).
Proof.
  intros Hd. unfold list_timeentry, _get_url, default_id. rewrite Hd.
  cbn [mbind result_bind]. apply decode_session_request.
Qed.

(** X14. [list_] on entries that can be shown: one request, then one row
    per entry, in the order of the answer; the row of an entry holds its
    description, its start and the time elapsed at the reading of the
    clock made for that row. The table with the three headers and these
    rows is handed to [console.print]: when [rich] renders it, it is
    printed and [list_] returns; when [rich] raises, as it does for a
    description that is not well-formed console markup, [list_] ends with
    that exception and nothing is printed. *)
Theorem list_shows_every_entry :
  forall (p : process) (d : Defaults) (resp : response) (entries : list json),
    _defaults (self (api p)) = Some d ->
    let rq :=
      mkRequest GET
        (_base_url (self (api p)) ++ "/workspaces/" ++ fmt (workspaceId d)
         ++ "/user/" ++ fmt (userId d) ++ "/time-entries")
        (headers (_session (self (api p))))
        (Some [("in-progress", JBool true)]) None in
    remote (sent (api p)) rq = Return resp ->
    json_loads (text resp) = Return (JList entries) ->
    Forall (entry_ok dt_parse) entries ->
    exists rows : list (list string),
      length rows = length entries
      /\ (forall (i : nat) (entry : json) (row : list string),
            entries !! i = Some entry -> rows !! i = Some row ->
            shows dt_parse entry (clock (ticks p + i)) row)
      /\ do_list p
         = match console_print columns rows with
           | Return _ =>
               (Return tt,
                mkProcess (mkWorld (self (api p)) (sent (api p) ++ [rq]))
                          (ticks p + length entries)
                          (stdout p ++ [PrintTable columns rows]))
           | Raise e =>
               (Raise e,
                mkProcess (mkWorld (self (api p)) (sent (api p) ++ [rq]))
                          (ticks p + length entries)
                          (stdout p))
           end.
Proof.
  intros p d resp entries Hd rq Hresp Hjson Hok.
  destruct (rows_of_ok entries (ticks p) Hok) as (rows & Hrows & Hlen & Hall).
  exists rows. split; [assumption|]. split; [assumption|].
  unfold list_. rewrite (list_timeentry_default _ d _ Hd). unfold client.one_call.
  fold rq. rewrite Hresp. cbn [mbind result_bind]. rewrite Hjson.
  cbn [iterate]. rewrite Hrows. destruct (console_print columns rows); reflexivity.
Qed.

Lemma start_timeentry_default (w : world Params) (d : Defaults)
    (body : option Body) (params : option Params) (payload : string) :
  _defaults (self w) = Some d ->
  json_dumps body = Return payload ->
  start_timeentry _check_bracketed_netloc nfkc_netloc_ok Params Body remote
    json_loads json_dumps str_of_container None body params w
  = one_call w (mkRequest POST
                  (_base_url (self w) ++ "/workspaces/" ++ fmt (workspaceId d)
                   ++ "/time-entries")
                  (headers (_session (self w))) params (Some payload)).
Proof.
  intros Hd Hbody. unfold start_timeentry, _get_url, default_id.
  rewrite Hd, Hbody. cbn [mbind result_bind]. apply decode_session_request.
Qed.

Lemma stop_timeentry_default (w : world Params) (d : Defaults)
    (body : option Body) (params : option Params) (payload : string) :
  _defaults (self w) = Some d ->
  json_dumps body = Return payload ->
  stop_timeentry _check_bracketed_netloc nfkc_netloc_ok Params Body remote
    json_loads json_dumps str_of_container None None body params w
  = one_call w (mkRequest PATCH
                  (_base_url (self w) ++ "/workspaces/" ++ fmt (workspaceId d)
                   ++ "/user/" ++ fmt (userId d) ++ "/time-entries")
                  (headers (_session (self w))) params (Some payload)).
Proof.
  intros Hd Hbody. unfold stop_timeentry, _get_url, default_id.
  rewrite Hd, Hbody. cbn [mbind result_bind]. apply decode_session_request.
Qed.

(** X15. [start] posts the description and the reading of the clock, and
    returns without a word whatever the service answers, as long as the
    answer is JSON: neither the status of the answer nor its content is
    looked at, so a refusal goes unnoticed. *)
Theorem start_does_not_see_a_refusal :
  forall (description : string) (p : process) (d : Defaults)
         (payload : string) (resp : response) (answer : json),
    _defaults (self (api p)) = Some d ->
    let body :=
      [("description", BStr description);
       ("start", BDatetime (now_utc (clock (ticks p))))] in
    json_dumps (Some body) = Return payload ->
    let rq :=
      mkRequest POST
        (_base_url (self (api p)) ++ "/workspaces/" ++ fmt (workspaceId d)
         ++ "/time-entries")
        (headers (_session (self (api p)))) None (Some payload) in
    remote (sent (api p)) rq = Return resp ->
    json_loads (text resp) = Return answer ->
    do_start description p
    = (Return tt,
       mkProcess (mkWorld (self (api p)) (sent (api p) ++ [rq]))
                 (S (ticks p)) (stdout p)).
Proof.
  intros description p d payload resp answer Hd body Hbody rq Hresp Hjson.
  unfold start. fold body.
  rewrite (start_timeentry_default _ d _ _ payload Hd Hbody).
  unfold client.one_call. fold rq. rewrite Hresp. cbn [mbind result_bind].
  rewrite Hjson. reflexivity.
Qed.

(** X16. [finish] patches the reading of the clock as the end, names no
    entry, and prints the decoded answer, whatever its status and its
    content are. *)
Theorem finish_prints_the_answer :
  forall (p : process) (d : Defaults)
         (payload : string) (resp : response) (answer : json),
    _defaults (self (api p)) = Some d ->
    let body := [("end", BDatetime (now_utc (clock (ticks p))))] in
    json_dumps (Some body) = Return payload ->
    let rq :=
      mkRequest PATCH
        (_base_url (self (api p)) ++ "/workspaces/" ++ fmt (workspaceId d)
         ++ "/user/" ++ fmt (userId d) ++ "/time-entries")
        (headers (_session (self (api p)))) None (Some payload) in
    remote (sent (api p)) rq = Return resp ->
    json_loads (text resp) = Return answer ->
    do_finish p
    = (Return tt,
       mkProcess (mkWorld (self (api p)) (sent (api p) ++ [rq]))
                 (S (ticks p)) (stdout p ++ [Print answer])).
Proof.
  intros p d payload resp answer Hd body Hbody rq Hresp Hjson.
  unfold finish. fold body.
  rewrite (stop_timeentry_default _ d _ _ payload Hd Hbody).
  unfold client.one_call. fold rq. rewrite Hresp. cbn [mbind result_bind].
  rewrite Hjson. reflexivity.
Qed.

Abbreviation do_dispatch :=
  (dispatch toml_basic_string _check_bracketed_netloc nfkc_netloc_ok remote
            json_loads json_dumps str_of_container dt_parse clock console_print).

Lemma dispatch_output (st : config.VerthandiSettings) (cmd : command)
    (p : process) :
  match fst (do_dispatch st cmd p) with
  | Raise _ => stdout (snd (do_dispatch st cmd p)) = stdout p
  | Return _ =>
      exists out,
        stdout (snd (do_dispatch st cmd p)) = (stdout p ++ out)%list
        /\ length out = match cmd with CmdStart _ => 0 | _ => 1 end
  end.
Proof.
  destruct cmd; cbn [dispatch].
  - unfold list_. destruct (list_timeentry _ _ _ _ _ _ _ _ _ _) as [[v|e] w];
      cbn [fst snd stdout]; [|reflexivity].
    destruct (iterate v); cbn [fst snd stdout]; [|reflexivity].
    destruct (rows_of _ _ _ _) as [[rows|e] t]; cbn [fst snd stdout]; [|reflexivity].
    destruct (console_print _ _); cbn [fst snd stdout]; [|reflexivity].
    eexists. split; reflexivity.
  - unfold start. destruct (start_timeentry _ _ _ _ _ _ _ _ _ _ _ _) as [[v|e] w];
      cbn [fst snd stdout]; [|reflexivity].
    exists []. split; [now rewrite app_nil_r | reflexivity].
  - unfold finish. destruct (stop_timeentry _ _ _ _ _ _ _ _ _ _ _ _ _) as [[v|e] w];
      cbn [fst snd stdout]; [|reflexivity].
    eexists. split; reflexivity.
  - unfold config_. destruct (config.to_str _ _); cbn [fst snd stdout]; [|reflexivity].
    eexists. split; reflexivity.
Qed.

Lemma dispatch_sent (st : config.VerthandiSettings) (cmd : command)
    (p : process) :
  exists new : list (request Params),
    sent (api (snd (do_dispatch st cmd p))) = (sent (api p) ++ new)%list
    /\ length new <= match cmd with CmdConfig => 0 | _ => 1 end
    /\ Forall (fun rq => req_headers rq = headers (_session (self (api p)))) new.
Proof.
  destruct cmd; cbn [dispatch].
  - unfold list_.
    destruct (perform_sent _check_bracketed_netloc nfkc_netloc_ok Params Body
                remote json_loads json_dumps str_of_container
                (OpList Params Body None None (Some [("in-progress", JBool true)])) (api p))
      as (new & Hs & Hl & Hh).
    cbn [perform] in Hs. exists new.
    destruct (list_timeentry _ _ _ _ _ _ _ _ _ _) as [[v|e] w];
      cbn [fst snd api] in *; [|auto].
    destruct (iterate v); cbn [fst snd api]; [|auto].
    destruct (rows_of _ _ _ _) as [[rows|e] t]; cbn [fst snd api]; [|auto].
    destruct (console_print _ _); cbn [fst snd api]; auto.
  - unfold start.
    match goal with
    | |- context [start_timeentry _ _ _ _ _ _ _ _ ?ws ?b ?ps ?w] =>
        destruct (perform_sent _check_bracketed_netloc nfkc_netloc_ok Params Body
                    remote json_loads json_dumps str_of_container
                    (OpStart Params Body ws b ps) w) as (new & Hs & Hl & Hh)
    end.
    cbn [perform] in Hs. exists new.
    destruct (start_timeentry _ _ _ _ _ _ _ _ _ _ _ _) as [[v|e] w];
      cbn [fst snd api] in *; auto.
  - unfold finish.
    match goal with
    | |- context [stop_timeentry _ _ _ _ _ _ _ _ ?ws ?us ?b ?ps ?w] =>
        destruct (perform_sent _check_bracketed_netloc nfkc_netloc_ok Params Body
                    remote json_loads json_dumps str_of_container
                    (OpStop Params Body ws us b ps) w) as (new & Hs & Hl & Hh)
    end.
    cbn [perform] in Hs. exists new.
    destruct (stop_timeentry _ _ _ _ _ _ _ _ _ _ _ _ _) as [[v|e] w];
      cbn [fst snd api] in *; auto.
  - exists []. unfold config_. rewrite app_nil_r.
    destruct (config.to_str _ _); cbn [fst snd api]; repeat split; auto.
Qed.

(** X17. A command that raises has printed nothing, and a command that
    returns has printed once ([list], [finish], [config]) or not at all
    ([start]): the table of [list] appears whole or not at all. *)
Theorem main_prints_only_on_success :
  forall (cmd : command) (fs : config.filesystem),
    match fst (do_main cmd fs) with
    | Raise _ => printed (snd (do_main cmd fs)) = []
    | Return _ =>
        length (printed (snd (do_main cmd fs)))
        = match cmd with CmdStart _ => 0 | _ => 1 end
    end.
Proof.
  intros cmd fs. unfold main.
  destruct (config.load _ _ _ _ _ _) as [[st|e] fs']; [|reflexivity].
  destruct (__init__ _ _ _ _ _ _ _ _ _ _ _) as [[[]|e] w]; [|reflexivity].
  pose proof (dispatch_output st cmd (mkProcess w 0 [])) as H.
  destruct (do_dispatch st cmd (mkProcess w 0 [])) as [[[]|e] p'];
    cbn [fst snd stdout printed] in *.
  - destruct H as (out & -> & Hlen). exact Hlen.
  - exact H.
Qed.

Abbreviation do_load :=
  (config.load user_config_dir env_vars toml_basic_string tomlkit_parse).
Abbreviation default_path := (config._get_appdirs_path user_config_dir).

Abbreviation user_request := (commands.user_request default_headers).

(** [api_key or ""] is the key itself, and the empty text without one. *)
Lemma or_empty_default (api_key : option string) :
  or_empty api_key = default "" api_key.
Proof. destruct api_key as [[|c k]|]; reflexivity. Qed.

Lemma init_headers_key (api_key : option string) :
  init_headers default_headers api_key !! "X-Api-Key" = Some (default "" api_key).
Proof.
  unfold init_headers. rewrite lookup_insert_ne by discriminate.
  rewrite lookup_insert_eq. now rewrite or_empty_default.
Qed.

(** X18. Whatever the command is, [config] included, the program first
    sends the user request, with the API key of the settings in its
    [X-Api-Key] header (the empty text when the settings have no key);
    the command then sends at most one request ([config] none), with the
    same key, and the file system is as [load] left it. *)
Theorem main_sends_the_user_request_first :
  forall (cmd : command) (fs fs' : config.filesystem)
         (st : config.VerthandiSettings),
    do_load None fs = (Return st, fs') ->
    exists rest : list (request Params),
      requests (snd (do_main cmd fs)) = user_request st :: rest
      /\ length rest <= match cmd with CmdConfig => 0 | _ => 1 end
      /\ Forall (fun rq => req_headers rq !! "X-Api-Key"
                           = Some (default "" (config.API_KEY st)))
                (user_request st :: rest)
      /\ files (snd (do_main cmd fs)) = fs'.
Proof.
  intros cmd fs fs' st Hload. unfold main. rewrite Hload.
  pose proof (init_sends_one_request st _check_bracketed_netloc nfkc_netloc_ok
                Params default_headers remote json_loads str_of_container
                (config.API_KEY st) (Some (config.BASE_URL st)) [])
    as (Hsent & Hheaders & _).
  cbn [app] in Hsent.
  change (default (config.BASE_URL st) (Some (config.BASE_URL st)))
    with (config.BASE_URL st) in Hsent.
  destruct (__init__ _ _ _ _ _ _ _ _ _ _ _) as [[[]|e] w]; cbn [snd] in Hsent, Hheaders.
  - destruct (dispatch_sent st cmd (mkProcess w 0 [])) as (new & Hs & Hl & Hh).
    cbn [api] in Hs, Hh.
    destruct (do_dispatch st cmd (mkProcess w 0 [])) as [r p'].
    cbn [snd requests files] in *. exists new. rewrite Hs, Hsent.
    split; [reflexivity|]. split; [exact Hl|]. split; [|reflexivity].
    constructor; [apply init_headers_key|].
    eapply Forall_impl; [exact Hh|]. intros rq ->. rewrite Hheaders.
    apply init_headers_key.
  - cbn [snd requests files]. exists []. rewrite Hsent.
    split; [reflexivity|]. split; [destruct cmd; cbn; lia|].
    split; [|reflexivity]. constructor; [apply init_headers_key | constructor].
Qed.


(** X20. When the service answers the user request with a JSON object
    that has no [defaultWorkspace], as it does for a key it refuses, every
    command, [config] included, ends with the [KeyError] of that key:
    nothing is printed and no other request is sent. *)
Theorem main_fails_without_default_workspace :
  forall (cmd : command) (fs fs' : config.filesystem)
         (st : config.VerthandiSettings) (resp : response)
         (entries : list (string * json)),
    do_load None fs = (Return st, fs') ->
    remote [] (user_request st) = Return resp ->
    json_loads (text resp) = Return (JDict entries) ->
    assoc "defaultWorkspace" entries = None ->
    do_main cmd fs
    = (Raise (KeyError "defaultWorkspace"), mkRun fs' [user_request st] []).
Proof.
  intros cmd fs fs' st resp entries Hload Hresp Hjson Hws.
  unfold commands.user_request in *.
  unfold main. rewrite Hload.
  unfold __init__. rewrite get_user_one_call. unfold client.one_call.
  cbn [self sent _base_url _session headers app].
  change (default (config.BASE_URL st) (Some (config.BASE_URL st)))
    with (config.BASE_URL st).
  fold (init_headers default_headers (config.API_KEY st)).
  rewrite Hresp. cbn [mbind result_bind]. rewrite Hjson.
  cbn [subscript]. rewrite Hws. reflexivity.
Qed.

End CommandBehaviour.

Lemma list_shows_every_entry_witness :
  commands.list_ sample.check_ok sample.check_ok sample.remote_list
    sample.json_loads_entries sample.str_of_container sample.dt_parse
    sample.still_clock sample.console_print sample.a_process
  = (Return tt,
     commands.mkProcess
       (client.mkWorld sample.a_client
          [client.mkRequest client.GET
             "https://api.example.com/v1/workspaces/w-42/user/u-17/time-entries"
             ∅ (Some [("in-progress", client.JBool true)]) None])
       2
       [commands.PrintTable commands.columns
          [["Weaving"; "2021-03-04T12:00:00Z"; "1:02:03"];
           ["Spinning"; "2021-03-04T13:00:00Z"; "0:02:03"]]]).
Proof.
  destruct (list_shows_every_entry sample.check_ok sample.check_ok
              sample.remote_list sample.json_loads_entries
              sample.str_of_container sample.dt_parse sample.still_clock
              sample.console_print sample.a_process
              (client.mkDefaults (client.JStr "w-42") (client.JStr "u-17"))
              (client.mkResponse 200 "[...]")
              [sample.an_entry "Weaving" "2021-03-04T12:00:00Z";
               sample.an_entry "Spinning" "2021-03-04T13:00:00Z"]
              eq_refl eq_refl eq_refl)
    as (rows & _ & _ & Hlist).
  - repeat constructor.
    + exists (client.JStr "Weaving"),
        (client.JDict [("start", client.JStr "2021-03-04T12:00:00Z");
                       ("end", client.JNull)]),
        "Weaving", "2021-03-04T12:00:00Z", 1614859200000000%Z, 0%Z.
      repeat split; vm_compute; reflexivity.
    + exists (client.JStr "Spinning"),
        (client.JDict [("start", client.JStr "2021-03-04T13:00:00Z");
                       ("end", client.JNull)]),
        "Spinning", "2021-03-04T13:00:00Z", 1614862800000000%Z, 0%Z.
      repeat split; vm_compute; reflexivity.
  - vm_compute. reflexivity.
Defined.

(** A description with a closing tag that closes nothing: [rich] raises
    when the table is printed, and nothing is printed. *)
Example list_with_a_tag_in_a_description :
  commands.list_ sample.check_ok sample.check_ok sample.remote_list
    sample.json_loads_tag sample.str_of_container sample.dt_parse
    sample.still_clock sample.console_print sample.a_process
  = (Raise (LibraryError "rich.errors.MarkupError"),
     commands.mkProcess
       (client.mkWorld sample.a_client
          [client.mkRequest client.GET
             "https://api.example.com/v1/workspaces/w-42/user/u-17/time-entries"
             ∅ (Some [("in-progress", client.JBool true)]) None])
       1 []).
Proof. vm_compute. reflexivity. Qed.

Lemma start_does_not_see_a_refusal_witness :
  commands.start sample.check_ok sample.check_ok sample.remote_refusing_entries
    sample.json_loads_by_text sample.json_dumps_body sample.str_of_container
    sample.still_clock "Weaving" sample.a_process
  = (Return tt,
     commands.mkProcess
       (client.mkWorld sample.a_client
          [client.mkRequest client.POST
             "https://api.example.com/v1/workspaces/w-42/time-entries"
             ∅ None (Some "{body}")])
       1 []).
Proof.
  exact (start_does_not_see_a_refusal sample.check_ok sample.check_ok
           sample.remote_refusing_entries sample.json_loads_by_text
           sample.json_dumps_body sample.str_of_container sample.still_clock
           "Weaving" sample.a_process
           (client.mkDefaults (client.JStr "w-42") (client.JStr "u-17"))
           "{body}" (client.mkResponse 400 "{error}")
           (client.JDict [("message", client.JStr "Bad request");
                          ("code", client.JInt 501)])
           eq_refl eq_refl eq_refl eq_refl).
Defined.

Lemma finish_prints_the_answer_witness :
  commands.stdout
    (snd (commands.finish sample.check_ok sample.check_ok
            sample.remote_refusing_entries sample.json_loads_by_text
            sample.json_dumps_body sample.str_of_container sample.still_clock
            sample.a_process))
  = [commands.Print (client.JDict [("message", client.JStr "Bad request");
                                   ("code", client.JInt 501)])].
Proof.
  rewrite (finish_prints_the_answer sample.check_ok sample.check_ok
             sample.remote_refusing_entries sample.json_loads_by_text
             sample.json_dumps_body sample.str_of_container sample.still_clock
             sample.a_process
             (client.mkDefaults (client.JStr "w-42") (client.JStr "u-17"))
             "{body}" (client.mkResponse 400 "{error}")
             (client.JDict [("message", client.JStr "Bad request");
                            ("code", client.JInt 501)])
             eq_refl eq_refl eq_refl eq_refl).
  reflexivity.
Defined.

Lemma main_sends_the_user_request_first_witness :
  exists rest,
    commands.requests
      (snd (commands.main sample.user_config_dir ∅ sample.toml_basic_string
              sample.tomlkit_parse sample.check_ok sample.check_ok ∅
              sample.remote_refusing_all sample.json_loads_error
              sample.json_dumps_body sample.str_of_container sample.dt_parse
              sample.still_clock sample.console_print commands.CmdConfig
              sample.a_filesystem))
    = commands.user_request ∅ sample.some_settings :: rest
    /\ Forall (fun rq => client.req_headers rq !! "X-Api-Key" = Some "secret")
              (commands.user_request ∅ sample.some_settings :: rest).
Proof.
  destruct (main_sends_the_user_request_first
              sample.user_config_dir ∅ sample.toml_basic_string
              sample.tomlkit_parse sample.check_ok sample.check_ok ∅
              sample.remote_refusing_all sample.json_loads_error
              sample.json_dumps_body sample.str_of_container sample.dt_parse
              sample.still_clock sample.console_print commands.CmdConfig
              sample.a_filesystem sample.a_filesystem sample.some_settings
              eq_refl)
    as (rest & Hreq & _ & Hkey & _).
  exists rest. split; [exact Hreq | exact Hkey].
Defined.


Lemma main_fails_without_default_workspace_witness :
  commands.main sample.user_config_dir ∅ sample.toml_basic_string
    sample.tomlkit_parse sample.check_ok sample.check_ok ∅
    sample.remote_refusing_all sample.json_loads_error
    sample.json_dumps_body sample.str_of_container sample.dt_parse
    sample.still_clock sample.console_print commands.CmdConfig sample.a_filesystem
  = (Raise (KeyError "defaultWorkspace"),
     commands.mkRun sample.a_filesystem
       [commands.user_request ∅ sample.some_settings] []).
Proof.
  exact (main_fails_without_default_workspace
           sample.user_config_dir ∅ sample.toml_basic_string
           sample.tomlkit_parse sample.check_ok sample.check_ok ∅
           sample.remote_refusing_all sample.json_loads_error
           sample.json_dumps_body sample.str_of_container sample.dt_parse
           sample.still_clock sample.console_print commands.CmdConfig
           sample.a_filesystem sample.a_filesystem sample.some_settings
           (client.mkResponse 401 "{error}")
           [("message", client.JStr "Api key does not exist");
            ("code", client.JInt 1000)]
           eq_refl eq_refl eq_refl eq_refl).
Defined.

(** ** The tasks of the developer *)

Section TaskBehaviour.

Import tasks.

Variable ROOT_DIR : string.
Variable APP_DIR : string.
Variable shell : list event -> string -> string -> Z.

Abbreviation do_check := (check ROOT_DIR APP_DIR shell).
Abbreviation do_checks := (checks ROOT_DIR APP_DIR shell).
Abbreviation do_run := (run shell).

Lemma code_to_stat_zero (exit_code : Z) (underline emoji : bool) :
  _code_to_stat exit_code underline emoji = _code_to_stat 0 underline emoji
  <-> exit_code = 0%Z.
Proof.
  split.
  - intros H. destruct (Z.eqb_spec exit_code 0) as [|Hne]; [assumption|].
    exfalso. unfold _code_to_stat in H.
    apply Z.eqb_neq in Hne. rewrite Hne in H.
    destruct underline, emoji; cbn in H; discriminate.
  - intros ->. reflexivity.
Qed.

Lemma run_warn_returns (cwd command : string) : returns (do_run cwd command true).
Proof. intros tr. unfold run. cbn [orb]. eauto. Qed.

Lemma block_returns (enabled : bool) (title key : string) (t : task Z)
    (results : list (string * Z)) (tr : list event) :
  returns t ->
  exists extra tr',
    block enabled title key t results tr = (Done (results ++ extra)%list, tr')
    /\ map fst extra = if enabled then [key] else [].
Proof.
  intros Ht. destruct enabled; cbn [block].
  - unfold and_then, say, done.
    destruct (Ht (((tr ++ [Say rule]) ++ [Say title]) ++ [Say rule])%list)
      as (code & tr' & Hrun).
    rewrite Hrun. exists [(key, code)], tr'. split; reflexivity.
  - exists [], tr. unfold done. rewrite app_nil_r. split; reflexivity.
Qed.

(** X21. The text of a result says PASS exactly when the exit code is 0:
    with the same decorations, the text of a code is the text of 0 if and
    only if the code is 0. *)
Theorem code_to_stat_pass_iff_zero :
  forall (exit_code : Z) (underline emoji : bool),
    _code_to_stat exit_code underline emoji = _code_to_stat 0 underline emoji
    <-> exit_code = 0%Z.
Proof. exact code_to_stat_zero. Qed.

Lemma and_then_done {A B : Type} (t : task A) (k : A -> task B)
    (tr tr' : list event) (a : A) :
  t tr = (Done a, tr') -> and_then t k tr = k a tr'.
Proof. intros H. unfold and_then. now rewrite H. Qed.

Lemma checks_return (lint_ test_ coverage_ mypy_ black_ isort_ docs_ : bool)
    (tr : list event) :
  exists results tr1,
    do_checks lint_ false test_ coverage_ mypy_ black_ isort_ docs_ tr
    = (Done results, tr1)
    /\ map fst results
       = enabled_keys lint_ test_ coverage_ mypy_ black_ isort_ docs_.
Proof.
  unfold checks.
  destruct (block_returns lint_ "Running pylint..." "lint"
              (lint ROOT_DIR APP_DIR shell) [] tr (run_warn_returns _ _))
    as (e1 & tr1 & H1 & K1).
  rewrite (and_then_done _ _ _ _ _ H1). cbv beta.
  rewrite (and_then_done _ _ tr1 tr1 ([] ++ e1)%list) by reflexivity. cbv beta.
  destruct (block_returns test_ "Running tests..." "test"
              (test APP_DIR shell true false) ([] ++ e1)%list tr1 (run_warn_returns _ _))
    as (e2 & tr2 & H2 & K2).
  rewrite (and_then_done _ _ _ _ _ H2). cbv beta.
  destruct (block_returns coverage_ "Reporting test coverage..." "coverage"
              (coverage APP_DIR shell) (([] ++ e1) ++ e2)%list tr2 (run_warn_returns _ _))
    as (e3 & tr3 & H3 & K3).
  rewrite (and_then_done _ _ _ _ _ H3). cbv beta.
  destruct (block_returns mypy_ "Running mypy..." "mypy"
              (mypy ROOT_DIR APP_DIR shell) ((([] ++ e1) ++ e2) ++ e3)%list tr3
              (run_warn_returns _ _))
    as (e4 & tr4 & H4 & K4).
  rewrite (and_then_done _ _ _ _ _ H4). cbv beta.
  destruct (block_returns black_ "Running black (formatting, just checking)..." "black"
              (black APP_DIR shell true false)
              (((([] ++ e1) ++ e2) ++ e3) ++ e4)%list tr4 (run_warn_returns _ _))
    as (e5 & tr5 & H5 & K5).
  rewrite (and_then_done _ _ _ _ _ H5). cbv beta.
  destruct (block_returns isort_ "Running isort (formatting, just checking)..." "isort"
              (isort APP_DIR shell true false)
              ((((([] ++ e1) ++ e2) ++ e3) ++ e4) ++ e5)%list tr5 (run_warn_returns _ _))
    as (e6 & tr6 & H6 & K6).
  rewrite (and_then_done _ _ _ _ _ H6). cbv beta.
  destruct (block_returns docs_ "Running mkdocs..." "docs"
              (docs APP_DIR shell 8002 true false)
              (((((([] ++ e1) ++ e2) ++ e3) ++ e4) ++ e5) ++ e6)%list tr6
              (run_warn_returns _ _))
    as (e7 & tr7 & H7 & K7).
  rewrite H7. eexists _, tr7. split; [reflexivity|].
  rewrite !map_app, K1, K2, K3, K4, K5, K6, K7. cbn [map app].
  unfold enabled_keys. now rewrite <- !app_assoc.
Qed.

Lemma run_or_true (cwd command : string) (tr : list event) :
  or_true_exits_0 shell ->
  endswith "|| true" command = true ->
  do_run cwd command false tr = (Done 0%Z, (tr ++ [Run cwd command 0])%list).
Proof.
  intros Hshell Hcmd. unfold run. rewrite (Hshell _ _ _ Hcmd). reflexivity.
Qed.

Lemma clean_silent (tr : list event) :
  or_true_exits_0 shell ->
  exists tail,
    clean APP_DIR shell true false true true true true tr = (Done tt, (tr ++ tail)%list)
    /\ forallb is_run tail = true.
Proof.
  intros Hshell. eexists. unfold clean, when. cbn [negb].
  unfold and_then, done.
  do 4 (rewrite run_or_true by first [exact Hshell | reflexivity]).
  split; [rewrite <- !app_assoc; reflexivity | reflexivity].
Qed.

Lemma any_nonzero_rows (results : list (string * Z)) :
  any_nonzero results = false
  <-> Forall (fun row => snd row = _code_to_stat 0 false true) (report_rows results).
Proof.
  unfold any_nonzero, report_rows.
  induction results as [|[k v] rest IH]; cbn [existsb map fst snd].
  - split; [constructor | reflexivity].
  - rewrite orb_false_iff, IH, Forall_cons. cbn [snd].
    rewrite code_to_stat_zero, negb_false_iff, Z.eqb_eq. reflexivity.
Qed.

(** X22. [check] without the fixmes ends with [Exit], after one report:
    the report has one row per enabled checker, in the order of the
    source, and the exit code is 0 when every row reads PASS and 1
    otherwise; with [clean_] the commands of [clean] follow the report. *)
Theorem check_exit_code_matches_report :
  forall (lint_ test_ coverage_ mypy_ black_ isort_ docs_ clean_ : bool)
         (tr : list event),
    or_true_exits_0 shell ->
    exists (results : list (string * Z)) (tr1 tail : list event) (code : Z),
      do_check lint_ false test_ coverage_ mypy_ black_ isort_ docs_ clean_ tr
      = (Failed (Exit code),
         (tr1 ++ [Say (String PyStr.LF "");
                  Report ("[bold]" ++ _code_to_stat code true true ++ "[/bold]")
                         (report_rows results);
                  SayCentered ("[underline bold]" ++ exit_msg code
                               ++ "[/underline bold]");
                  Say (String PyStr.LF "")] ++ tail)%list)
      /\ map fst (report_rows results)
         = enabled_keys lint_ test_ coverage_ mypy_ black_ isort_ docs_
      /\ (code = 0%Z \/ code = 1%Z)
      /\ (code = 0%Z
          <-> Forall (fun row => snd row = _code_to_stat 0 false true)
                     (report_rows results))
      /\ forallb is_run tail = true
      /\ (clean_ = false -> tail = []).
Proof.
  intros lint_ test_ coverage_ mypy_ black_ isort_ docs_ clean_ tr Hshell.
  destruct (checks_return lint_ test_ coverage_ mypy_ black_ isort_ docs_ tr)
    as (results & tr1 & Hchecks & Hkeys).
  set (code := if any_nonzero results then 1%Z else 0%Z).
  set (shown := (tr1 ++ [Say (String PyStr.LF "")]
                 ++ [Report ("[bold]" ++ _code_to_stat code true true ++ "[/bold]")
                            (report_rows results)]
                 ++ [SayCentered ("[underline bold]" ++ exit_msg code
                                  ++ "[/underline bold]")]
                 ++ [Say (String PyStr.LF "")])%list).
  assert (Hclean : exists tail,
             when clean_ (clean APP_DIR shell true false true true true true) shown
             = (Done tt, (shown ++ tail)%list)
             /\ forallb is_run tail = true /\ (clean_ = false -> tail = [])).
  { destruct clean_; cbn [when].
    - destruct (clean_silent shown Hshell) as (tail & Hc & Hr).
      exists tail. repeat split; [exact Hc | exact Hr | discriminate].
    - exists []. unfold done. rewrite app_nil_r. repeat split. }
  destruct Hclean as (tail & Hclean & Hruns & Hnil).
  exists results, tr1, tail, code. split; [|split; [|split; [|split; [|split]]]].
  - unfold check. rewrite (and_then_done _ _ _ _ _ Hchecks). cbv beta zeta.
    fold code. unfold and_then at 1. unfold say at 1.
    unfold and_then at 1. unfold and_then at 1. unfold and_then at 1.
    unfold say at 1.
    unfold and_then at 1.
    replace ((((tr1 ++ [Say (String PyStr.LF "")])
                ++ [Report ("[bold]" ++ _code_to_stat code true true ++ "[/bold]")
                           (report_rows results)])
               ++ [SayCentered ("[underline bold]" ++ exit_msg code
                                ++ "[/underline bold]")])
              ++ [Say (String PyStr.LF "")])%list with shown
      by (subst shown; now rewrite <- !app_assoc).
    rewrite Hclean. unfold fail. subst shown. f_equal.
    rewrite <- !app_assoc. reflexivity.
  - unfold report_rows. rewrite map_map. cbn [fst]. exact Hkeys.
  - subst code. destruct (any_nonzero results); auto.
  - rewrite <- any_nonzero_rows. subst code.
    destruct (any_nonzero results); split; congruence.
  - exact Hruns.
  - exact Hnil.
Qed.

(** X23. [check] with the fixmes never reports: after the block of the
    linter, if it is enabled, and the three lines of the fixmes block, the
    name [FOLDERS], which is defined nowhere, ends the task; no other
    checker runs and no table is printed. *)
Theorem check_with_fixmes_raises :
  forall (lint_ test_ coverage_ mypy_ black_ isort_ docs_ clean_ : bool)
         (tr : list event),
    let header title := [Say rule; Say title; Say rule] in
    let linted :=
      if lint_ then
        (tr ++ header "Running pylint..."
         ++ [Run ROOT_DIR ("pylint " ++ APP_DIR)
               (shell (tr ++ header "Running pylint...")%list
                      ROOT_DIR ("pylint " ++ APP_DIR))])%list
      else tr in
    do_check lint_ true test_ coverage_ mypy_ black_ isort_ docs_ clean_ tr
    = (Failed (NameError "FOLDERS"),
       (linted ++ header "Running pylint (fixmes)...")%list).
Proof.
  intros lint_ test_ coverage_ mypy_ black_ isort_ docs_ clean_ tr header linted.
  subst linted header. unfold check, checks.
  destruct lint_; unfold and_then, block, and_then, say, lint, run, fixmes, fail, done;
    cbn [orb]; rewrite <- ?app_assoc; reflexivity.
Qed.

End TaskBehaviour.

Lemma check_exit_code_matches_report_witness :
  exists code : Z,
    fst (tasks.check "/repo" "/repo/verthandi" sample.shell
           true false true true true true true true true [])
    = tasks.Failed (tasks.Exit code)
    /\ (code = 0%Z \/ code = 1%Z).
Proof.
  destruct (check_exit_code_matches_report "/repo" "/repo/verthandi" sample.shell
              true true true true true true true true [])
    as (results & tr1 & tail & code & Hcheck & _ & Hcode & _).
  - intros tr cwd command Hcmd. unfold sample.shell. now rewrite Hcmd.
  - exists code. rewrite Hcheck. split; [reflexivity | exact Hcode].
Defined.

(** ** More on what is written and what is sent *)

Section MoreSettingsBehaviour.

Import config.

Variable user_config_dir : string.
Variable env_vars : gmap string string.
Variable toml_basic_string : string -> string.
Variable tomlkit_parse : string -> result (gmap string toml_value).

Abbreviation default_path := (_get_appdirs_path user_config_dir).
Abbreviation do_load :=
  (load user_config_dir env_vars toml_basic_string tomlkit_parse).



End MoreSettingsBehaviour.


Section MoreCommandBehaviour.

Import client cli commands.

Variable _check_bracketed_netloc : string -> bool.
Variable nfkc_netloc_ok : string -> bool.
Variable remote : list (request Params) -> request Params -> result response.
Variable json_loads : string -> result json.
Variable json_dumps : option Body -> result string.
Variable str_of_container : json -> string.
Variable dt_parse : string -> result datetime.
Variable clock : nat -> Z.
Variable console_print : list string -> list (list string) -> result unit.

Abbreviation fmt := (format_value str_of_container).
Abbreviation do_list :=
  (list_ _check_bracketed_netloc nfkc_netloc_ok remote json_loads
         str_of_container dt_parse clock console_print).
Abbreviation do_start :=
  (start _check_bracketed_netloc nfkc_netloc_ok remote json_loads json_dumps
         str_of_container clock).
Abbreviation do_finish :=
  (finish _check_bracketed_netloc nfkc_netloc_ok remote json_loads json_dumps
          str_of_container clock).

(** The request of [list_]. *)
Abbreviation list_request p d :=
  (mkRequest (Params := Params) GET
     (_base_url (self (api p)) ++ "/workspaces/" ++ fmt (workspaceId d)
      ++ "/user/" ++ fmt (userId d) ++ "/time-entries")
     (headers (_session (self (api p))))
     (Some [("in-progress", JBool true)]) None).

(** X25. When [json.dumps] refuses the body, [start] and [finish] raise
    its exception before anything is sent: the clock has been read, no
    request has gone out and nothing is printed. *)
Theorem unencodable_body_sends_nothing :
  forall (description : string) (p : process) (d : Defaults) (e : exn),
    _defaults (self (api p)) = Some d ->
    json_dumps (Some [("description", BStr description);
                      ("start", BDatetime (now_utc (clock (ticks p))))])
    = Raise e ->
    json_dumps (Some [("end", BDatetime (now_utc (clock (ticks p))))])
    = Raise e ->
    do_start description p
    = (Raise e, mkProcess (api p) (S (ticks p)) (stdout p))
    /\ do_finish p
       = (Raise e, mkProcess (api p) (S (ticks p)) (stdout p)).
Proof.
  intros description p d e Hd Hstart Hend.
  unfold start, finish, start_timeentry, stop_timeentry, _get_url, default_id.
  rewrite Hd. cbn [mbind result_bind]. rewrite Hstart, Hend.
  split; reflexivity.
Qed.

Lemma rows_of_stop (good rest : list json) (bad : json) (t : nat) (e : exn) :
  Forall (entry_ok dt_parse) good ->
  subscript bad "description" = Raise e ->
  rows_of dt_parse clock (good ++ bad :: rest) t = (Raise e, t + length good).
Proof.
  intros Hgood Hbad. revert t.
  induction Hgood as [|entry good Hentry _ IH]; intros t; cbn [app rows_of length].
  - unfold row_of. rewrite Hbad. now rewrite Nat.add_0_r.
  - destruct (row_of_ok dt_parse clock entry t Hentry) as (row & Hrow & _).
    rewrite Hrow, (IH (S t)). now rewrite Nat.add_succ_r.
Qed.

(** X26. [list_] stops at the first entry without description: the
    [KeyError] of that entry ends the command, the entries before it have
    had their rows computed (one reading of the clock each) and the entries
    after it are not looked at, and no table is printed, not even for the
    entries that were fine. *)
Theorem list_stops_at_the_first_bad_entry :
  forall (p : process) (d : Defaults) (resp : response)
         (good rest : list json) (bad : json) (e : exn),
    _defaults (self (api p)) = Some d ->
    remote (sent (api p)) (list_request p d) = Return resp ->
    json_loads (text resp) = Return (JList (good ++ bad :: rest)) ->
    Forall (entry_ok dt_parse) good ->
    subscript bad "description" = Raise e ->
    do_list p
    = (Raise e,
       mkProcess (mkWorld (self (api p)) (sent (api p) ++ [list_request p d]))
                 (ticks p + length good) (stdout p)).
Proof.
  intros p d resp good rest bad e Hd Hresp Hjson Hgood Hbad.
  unfold list_.
  rewrite (list_timeentry_default _ _ _ _ _ _ d _ Hd). unfold client.one_call.
  rewrite Hresp. cbn [mbind result_bind]. rewrite Hjson. cbn [iterate].
  rewrite (rows_of_stop good rest bad (ticks p) e Hgood Hbad). reflexivity.
Qed.

(** X27. [list_] on an answer that is a JSON object and not a list, as an
    error document is: the loop goes through the keys of the object, and
    subscripting the first key, a string, raises the [TypeError] of
    CPython 3.11 for a string subscripted with a string; nothing is
    printed. On the empty object the loop has nothing to do and the table
    without rows is handed to [console.print]. *)
Theorem list_on_a_json_object :
  forall (p : process) (d : Defaults) (resp : response)
         (entries : list (string * json)),
    _defaults (self (api p)) = Some d ->
    remote (sent (api p)) (list_request p d) = Return resp ->
    json_loads (text resp) = Return (JDict entries) ->
    let w := mkWorld (self (api p)) (sent (api p) ++ [list_request p d]) in
    do_list p
    = match entries with
      | [] =>
          match console_print columns [] with
          | Return _ =>
              (Return tt,
               mkProcess w (ticks p) (stdout p ++ [PrintTable columns []]))
          | Raise e => (Raise e, mkProcess w (ticks p) (stdout p))
          end
      | _ :: _ =>
          (Raise (TypeError "string indices must be integers, not 'str'"),
           mkProcess w (ticks p) (stdout p))
      end.
Proof.
  intros p d resp entries Hd Hresp Hjson w.
  unfold list_.
  rewrite (list_timeentry_default _ _ _ _ _ _ d _ Hd). unfold client.one_call.
  rewrite Hresp. cbn [mbind result_bind]. rewrite Hjson.
  destruct entries as [|[k v] rest]; [|reflexivity].
  cbn [iterate map rows_of]. destruct (console_print columns []); reflexivity.
Qed.

End MoreCommandBehaviour.

Lemma unencodable_body_sends_nothing_witness :
  commands.start sample.check_ok sample.check_ok sample.remote_list
    sample.json_loads_entries sample.json_dumps_refusing sample.str_of_container
    sample.still_clock "Weaving" sample.a_process
  = (Raise (TypeError "Type is not JSON serializable"),
     commands.mkProcess (client.mkWorld sample.a_client []) 1 []).
Proof.
  exact (proj1 (unencodable_body_sends_nothing sample.check_ok sample.check_ok
           sample.remote_list sample.json_loads_entries sample.json_dumps_refusing
           sample.str_of_container sample.still_clock "Weaving" sample.a_process
           (client.mkDefaults (client.JStr "w-42") (client.JStr "u-17"))
           (TypeError "Type is not JSON serializable")
           eq_refl eq_refl eq_refl)).
Defined.

Lemma list_stops_at_the_first_bad_entry_witness :
  commands.list_ sample.check_ok sample.check_ok sample.remote_list
    sample.json_loads_bad_entries sample.str_of_container sample.dt_parse
    sample.still_clock sample.console_print sample.a_process
  = (Raise (KeyError "description"),
     commands.mkProcess
       (client.mkWorld sample.a_client
          [client.mkRequest client.GET
             "https://api.example.com/v1/workspaces/w-42/user/u-17/time-entries"
             ∅ (Some [("in-progress", client.JBool true)]) None])
       1 []).
Proof.
  refine (list_stops_at_the_first_bad_entry sample.check_ok sample.check_ok
            sample.remote_list sample.json_loads_bad_entries
            sample.str_of_container sample.dt_parse sample.still_clock
            sample.console_print sample.a_process
            (client.mkDefaults (client.JStr "w-42") (client.JStr "u-17"))
            (client.mkResponse 200 "[...]")
            [sample.an_entry "Weaving" "2021-03-04T12:00:00Z"]
            [sample.an_entry "Spinning" "2021-03-04T13:00:00Z"]
            (client.JDict [("id", client.JStr "e-2")])
            (KeyError "description")
            eq_refl eq_refl eq_refl _ eq_refl).
  repeat constructor.
  exists (client.JStr "Weaving"),
    (client.JDict [("start", client.JStr "2021-03-04T12:00:00Z");
                   ("end", client.JNull)]),
    "Weaving", "2021-03-04T12:00:00Z", 1614859200000000%Z, 0%Z.
  repeat split; vm_compute; reflexivity.
Defined.

Lemma list_on_a_json_object_witness :
  commands.list_ sample.check_ok sample.check_ok sample.remote_refusing_all
    sample.json_loads_error sample.str_of_container sample.dt_parse
    sample.still_clock sample.console_print sample.a_process
  = (Raise (TypeError "string indices must be integers, not 'str'"),
     commands.mkProcess
       (client.mkWorld sample.a_client
          [client.mkRequest client.GET
             "https://api.example.com/v1/workspaces/w-42/user/u-17/time-entries"
             ∅ (Some [("in-progress", client.JBool true)]) None])
       0 []).
Proof.
  exact (list_on_a_json_object sample.check_ok sample.check_ok
           sample.remote_refusing_all sample.json_loads_error
           sample.str_of_container sample.dt_parse sample.still_clock
           sample.console_print sample.a_process
           (client.mkDefaults (client.JStr "w-42") (client.JStr "u-17"))
           (client.mkResponse 401 "{error}")
           [("message", client.JStr "Api key does not exist");
            ("code", client.JInt 1000)]
           eq_refl eq_refl eq_refl).
Defined.
